(** * Verification of scripts/data_ingestion.py

    A shallow embedding of the ingestion script (mobile-site CSV adapter,
    NBN shapefile adapter, Optus KML adapter and the upsert into the
    [mobile_sites] table) together with the properties its design document
    states about it.

    Conventions of the embedding:
    - Python [str] is [string]; [str.lower], [str.upper] and [str.replace]
      are written out on ASCII letters (the script only ever compares their
      results with ASCII constants, and no non-ASCII character maps to one
      of the letters of those constants).
    - Python [float] is an IEEE-754 binary64 value, [SpecFloat.spec_float].
    - A Python exception is a value of [exn] carried by the [py] monad.
    - pandas, geopandas, PostGIS and the wall clock are the environment:
      they are the variables of the section [Ingestion] and the [clock]
      arguments of the functions. *)

From Stdlib Require Import ZArith Ascii Floats.SpecFloat.
From stdpp Require Import base strings list option gmap fin_maps pretty.

(** ** Python strings *)

Module PyStr.

Definition is_upper (c : Ascii.ascii) : bool :=
  let n := Ascii.N_of_ascii c in (65 <=? n)%N && (n <=? 90)%N.

Definition is_lower (c : Ascii.ascii) : bool :=
  let n := Ascii.N_of_ascii c in (97 <=? n)%N && (n <=? 122)%N.

Definition lower_char (c : Ascii.ascii) : Ascii.ascii :=
  if is_upper c then Ascii.ascii_of_N (Ascii.N_of_ascii c + 32) else c.

Definition upper_char (c : Ascii.ascii) : Ascii.ascii :=
  if is_lower c then Ascii.ascii_of_N (Ascii.N_of_ascii c - 32) else c.

Fixpoint map_chars (f : Ascii.ascii -> Ascii.ascii) (s : string) : string :=
  match s with
  | EmptyString => EmptyString
  | String c s' => String (f c) (map_chars f s')
  end.

(** [s.lower()] and [s.upper()] *)
Definition lower : string -> string := map_chars lower_char.
Definition upper : string -> string := map_chars upper_char.

(** [s.replace(a, b)] for one-character [a] and [b] *)
Definition replace_char (a b : Ascii.ascii) : string -> string :=
  map_chars (fun c => if decide (c = a) then b else c).

(** [needle in hay] for two strings: [needle] occurs at some position *)
Fixpoint contains (needle hay : string) : bool :=
  String.prefix needle hay ||
  match hay with
  | EmptyString => false
  | String _ hay' => contains needle hay'
  end.

(** The property [contains] decides. *)
Definition substring_of (needle hay : string) : Prop :=
  exists pre post, hay = pre +:+ needle +:+ post.

End PyStr.

(** ** Python values that occur in the script *)

(** binary64 floats *)
Definition pyfloat : Type := spec_float.

Definition prec64 : Z := 53.
Definition emax64 : Z := 1024.

(** the float nearest to an integer (exact below 2^53) *)
Definition float_of_Z (z : Z) : pyfloat := binary_normalize prec64 emax64 z 0 false.

Definition float_le (x y : pyfloat) : bool := SFleb x y.
Definition float_div (x y : pyfloat) : pyfloat := SFdiv prec64 emax64 x y.

(** binary64 values of the decimal literals 40.0, 151.2 and -33.8 *)
Definition f_40_0 : pyfloat := S754_finite false 5629499534213120 (-47).
Definition f_151_2 : pyfloat := S754_finite false 5319877059831398 (-45).
Definition f_m33_8 : pyfloat := S754_finite true 4756927106410086 (-47).

(** [datetime.now()]: the calendar year and the position within that year *)
Record datetime := { dt_year : Z; dt_rest : Z }.

(** Exceptions the modelled code can raise *)
Inductive exn :=
  | KeyError (key : string)
  | ValueError (msg : string).

(** Computations that return or raise *)
Inductive py (A : Type) :=
  | Ret (a : A)
  | Raise (e : exn).
Arguments Ret {A} a.
Arguments Raise {A} e.

Global Instance py_ret : MRet py := fun A a => Ret a.
Global Instance py_bind : MBind py := fun A B k m =>
  match m with
  | Ret a => k a
  | Raise e => Raise e
  end.

(** [any(p(x) for x in xs)] *)
Fixpoint py_any {A} (p : A -> bool) (xs : list A) : bool :=
  match xs with
  | [] => false
  | x :: rest => if p x then true else py_any p rest
  end.

(** ** The data of the script and its closed functions *)

(** One cell of a row that [pd.read_csv] produced: text, a float, or an
    integer. An empty CSV field is the float NaN. *)
Inductive cell :=
  | CStr (s : string)
  | CFloat (f : pyfloat)
  | CInt (z : Z).

(** A row of the data frame: column name to cell *)
Abbreviation csv_row := (gmap string cell).

Module Bands.
Definition optus : list string :=
  ["NBIoT700"; "UMTS900"; "UMTS2100"; "LTE700"; "LTE900";
   "LTE1800"; "LTE2100"; "LTE2300"; "LTE2600"; "NR900";
   "NR2100"; "NR2300"; "NR3500"; "NR26000"].
Definition telstra : list string :=
  ["GSM900"; "IoT700"; "WCDMA850"; "WCDMA2100"; "LTE700";
   "LTE850"; "LTE900"; "LTE1800"; "LTE2100"; "LTE2600";
   "NR700"; "NR850"; "NR2100"; "NR2600"; "NR3600"; "NR26000"].
Definition tpg : list string :=
  ["NBIoT850"; "LTE700"; "LTE850"; "LTE1800"; "LTE2100";
   "NR700"; "NR1800"; "NR2100"; "NR3600"; "NR26000"].
End Bands.

(** [determine_technology] *)
Definition determine_technology (bands : list string) : string :=
  if py_any (fun band => PyStr.contains "NR" band) bands then "5G"
  else if py_any (fun band => PyStr.contains "LTE" band) bands then "4G/LTE"
  else if py_any (fun band => PyStr.contains "UMTS" band || PyStr.contains "WCDMA" band) bands then "3G"
  else if py_any (fun band => PyStr.contains "GSM" band) bands then "2G"
  else "Unknown".

(** Some band of the list contains the marker. *)
Definition has_marker (marker : string) (bands : list string) : Prop :=
  exists band, band ∈ bands /\ PyStr.substring_of marker band.

(** The dictionary [record] that [process_csv_file] builds and
    [insert_mobile_sites] consumes. The key ['site_type'] is optional:
    [None] is "key absent", [Some None] is the Python value [None] (SQL
    NULL), [Some (Some s)] is text. *)
Record site_record := {
  site_id : string;
  carrier : string;
  site_name : string;
  latitude : pyfloat;
  longitude : pyfloat;
  frequency_bands : list string;
  technology : string;
  operational_status : string;
  data_source : string;
  last_updated : datetime;
  site_type : option (option string)
}.

(** [-50 <= lat <= -10 and 110 <= lon <= 160] (Australia bounds) *)
Definition in_australia (lat lon : pyfloat) : bool :=
  float_le (float_of_Z (-50)) lat && float_le lat (float_of_Z (-10)) &&
  float_le (float_of_Z 110) lon && float_le lon (float_of_Z 160).

(** SQL [COALESCE(a, b)] *)
Definition coalesce {A} (a b : option A) : option A :=
  match a with
  | Some _ => a
  | None => b
  end.

Section Tables.

Context {geometry : Type}.

(** The columns of a row of [mobile_sites] other than its unique key
    [(site_id, carrier)]. [site_type] may hold NULL. *)
Record site_row := {
  row_site_name : string;
  row_latitude : pyfloat;
  row_longitude : pyfloat;
  row_location : geometry;
  row_location_mga56 : geometry;
  row_frequency_bands : list string;
  row_technology : string;
  row_operational_status : string;
  row_data_source : string;
  row_last_updated : datetime;
  row_site_type : option string
}.

(** A value held in a column of a GeoDataFrame *)
Inductive value :=
  | VStr (s : string)
  | VFloat (f : pyfloat)
  | VInt (z : Z)
  | VTime (t : datetime)
  | VGeom (g : geometry).

(** A row of a GeoDataFrame: the active geometry column (named
    ['geometry']) and the other columns by name *)
Record geo_row := {
  geom : geometry;
  attrs : gmap string value
}.

(** A GeoDataFrame: its CRS (an EPSG code, or none declared) and rows *)
Record geodataframe := {
  gdf_crs : option Z;
  gdf_rows : list geo_row
}.

End Tables.

Arguments site_row : clear implicits.
Arguments value : clear implicits.
Arguments geo_row : clear implicits.
Arguments geodataframe : clear implicits.

(** ** A small environment for examples

    Stand-ins for the environment, on which the functions of the script can
    be run: the float conversions on the literals the examples use, points
    and polygons with a toy reprojection, and a file system with a few
    files. *)

Module Demo.

Definition str_of_float (f : pyfloat) : string :=
  if SFeqb f f_40_0 then "40.0"
  else if SFeqb f f_151_2 then "151.2"
  else if SFeqb f f_m33_8 then "-33.8"
  else "nan".

Definition float_of_str (s : string) : option pyfloat :=
  if decide (s = "40.0") then Some f_40_0
  else if decide (s = "151.2") then Some f_151_2
  else if decide (s = "-33.8") then Some f_m33_8
  else None.

Definition clock : nat -> datetime * datetime :=
  fun _ => ({| dt_year := 2024; dt_rest := 0 |}, {| dt_year := 2024; dt_rest := 1 |}).

(** LTE700=Y, NR3500=Y, Latitude=-33.8, Longitude=151.2 *)
Definition row_sydney : csv_row :=
  list_to_map [("RFNSA ID", CStr "2000001"); ("Latitude", CFloat f_m33_8);
               ("Longitude", CFloat f_151_2); ("LTE700", CStr "Y");
               ("NR3500", CStr "Y")].

(** Latitude=40.0, Longitude=151.2 *)
Definition row_north : csv_row :=
  list_to_map [("RFNSA ID", CStr "2000002"); ("Latitude", CFloat f_40_0);
               ("Longitude", CFloat f_151_2); ("LTE700", CStr "Y")].

(** the site of [row_sydney] again, flagged as co-funded *)
Definition row_cofunded : csv_row :=
  list_to_map [("RFNSA ID", CStr "2000001"); ("Latitude", CFloat f_m33_8);
               ("Longitude", CFloat f_151_2); ("LTE700", CStr "Y");
               ("Co_funded", CStr "y"); ("Co_contribution_program", CStr "MBSP")].

(** rows of a file whose latitude column holds text *)
Definition row_text_ok : csv_row :=
  list_to_map [("RFNSA ID", CStr "2000003"); ("Latitude", CStr "-33.8");
               ("Longitude", CStr "151.2")].
Definition row_text_bad : csv_row :=
  list_to_map [("RFNSA ID", CStr "2000004"); ("Latitude", CStr "abc");
               ("Longitude", CStr "151.2")].
Definition row_text_ok' : csv_row :=
  list_to_map [("RFNSA ID", CStr "2000005"); ("Latitude", CStr "-33.8");
               ("Longitude", CStr "151.2")].

Definition read_csv (path : string) : option (list csv_row) :=
  if decide (path = "sites.csv") then Some [row_sydney; row_north]
  else if decide (path = "cofunded.csv") then Some [row_cofunded]
  else if decide (path = "damaged.csv") then Some [row_text_ok; row_text_bad; row_text_ok']
  else None.

(** a point: its SRID and coordinates (the stand-in for [ST_Transform]
    changes the SRID and keeps the coordinates) *)
Definition point : Type := Z * (pyfloat * pyfloat).
Definition st_point_4326 (lon lat : pyfloat) : point := (4326%Z, (lon, lat)).
Definition st_transform (g : point) (srid : Z) : point := (srid, g.2).

(** the record the adapter makes of [row_sydney] for carrier Optus *)
Definition site_plain : site_record := {|
  site_id := "2000001";
  carrier := "Optus";
  site_name := "Optus Site 2000001";
  latitude := f_m33_8;
  longitude := f_151_2;
  frequency_bands := ["LTE700"; "NR3500"];
  technology := "5G";
  operational_status := "Active";
  data_source := "CSV_Optus_2024";
  last_updated := {| dt_year := 2024; dt_rest := 1 |};
  site_type := None
|}.

(** an earlier record of the same site, flagged as co-funded *)
Definition site_cofunded : site_record := {|
  site_id := "2000001";
  carrier := "Optus";
  site_name := "Optus Site 2000001 (MBSP)";
  latitude := f_m33_8;
  longitude := f_151_2;
  frequency_bands := ["LTE700"];
  technology := "4G/LTE";
  operational_status := "Active";
  data_source := "CSV_Optus_2023";
  last_updated := {| dt_year := 2023; dt_rest := 7 |};
  site_type := Some (Some "Co-funded")
|}.

(** the row stored for [site_cofunded] *)
Definition stored_cofunded : site_row point := {|
  row_site_name := "Optus Site 2000001 (MBSP)";
  row_latitude := f_m33_8;
  row_longitude := f_151_2;
  row_location := (4326%Z, (f_151_2, f_m33_8));
  row_location_mga56 := (7856%Z, (f_151_2, f_m33_8));
  row_frequency_bands := ["LTE700"];
  row_technology := "4G/LTE";
  row_operational_status := "Active";
  row_data_source := "CSV_Optus_2023";
  row_last_updated := {| dt_year := 2023; dt_rest := 7 |};
  row_site_type := Some "Co-funded"
|}.

(** a polygon: its ring, in integer coordinates *)
Definition polygon : Type := list (Z * Z).

(** toy reprojection: one unit of EPSG:4326 is 1000 units of EPSG:7856 *)
Definition to_crs (source target : Z) (g : polygon) : polygon :=
  if decide (source = target) then g
  else if decide (target = 7856%Z) then map (fun p => (p.1 * 1000, p.2 * 1000)%Z) g
  else if decide (source = 7856%Z) then map (fun p => (p.1 / 1000, p.2 / 1000)%Z) g
  else g.

(** shoelace formula *)
Fixpoint shoelace (first : Z * Z) (ring : list (Z * Z)) : Z :=
  match ring with
  | [] => 0
  | [p] => (p.1 * first.2 - first.1 * p.2)%Z
  | p :: (q :: _) as rest => (p.1 * q.2 - q.1 * p.2 + shoelace first rest)%Z
  end.

Definition area (g : polygon) : pyfloat :=
  match g with
  | [] => float_of_Z 0
  | first :: _ => float_of_Z (Z.abs (shoelace first g) / 2)
  end.

Definition unit_square : polygon := [(0, 0); (1, 0); (1, 1); (0, 1)]%Z.
Definition unit_square_mga : polygon := [(0, 0); (1000, 0); (1000, 1000); (0, 1000)]%Z.

Definition feature (name : string) (g : polygon) : geo_row polygon :=
  {| geom := g; attrs := list_to_map [("Name", VStr name); ("Description", VStr "")] |}.

Definition read_file (path : string) : option (geodataframe polygon) :=
  if decide (path = "optus.kml")
  then Some {| gdf_crs := Some 4326%Z; gdf_rows := [feature "Area 1" unit_square] |}
  else if decide (path = "nbn_coverage_fixedline.shp")
  then Some {| gdf_crs := None;
               gdf_rows := [feature "FL 1" unit_square_mga; feature "FL 2" unit_square_mga] |}
  else if decide (path = "nbn_coverage_wireless.shp")
  then Some {| gdf_crs := Some 7856%Z; gdf_rows := [feature "W 1" unit_square_mga] |}
  else None.

Definition now : datetime * datetime :=
  ({| dt_year := 2024; dt_rest := 0 |}, {| dt_year := 2024; dt_rest := 1 |}).

End Demo.

(** What [main] finds around it: whether [test_connection] succeeds, which
    paths exist, and the clock readings taken while a file is processed *)
Record run_env := {
  connection_ok : bool;
  path_exists : string -> bool;
  csv_clock : string -> nat -> datetime * datetime;
  frame_clock : string -> datetime * datetime
}.

(** ** A run of [main] on the example environment *)

Module DemoRun.

(** a record of the site of [Demo.site_plain] that carries ['site_type': None] *)
Definition site_null : site_record := {|
  site_id := "2000001";
  carrier := "Optus";
  site_name := "Optus Site 2000001";
  latitude := f_m33_8;
  longitude := f_151_2;
  frequency_bands := ["LTE700"; "NR3500"];
  technology := "5G";
  operational_status := "Active";
  data_source := "CSV_Optus_2024";
  last_updated := {| dt_year := 2024; dt_rest := 1 |};
  site_type := Some None
|}.

(** the record the adapter makes of [Demo.row_cofunded] for carrier Optus *)
Definition site_cofunded_2024 : site_record := {|
  site_id := "2000001";
  carrier := "Optus";
  site_name := "Optus Site 2000001 (MBSP)";
  latitude := f_m33_8;
  longitude := f_151_2;
  frequency_bands := ["LTE700"];
  technology := "4G/LTE";
  operational_status := "Active";
  data_source := "CSV_Optus_2024";
  last_updated := {| dt_year := 2024; dt_rest := 1 |};
  site_type := Some (Some "Co-funded")
|}.

(** a row whose latitude field was empty *)
Definition row_empty_latitude : csv_row :=
  list_to_map [("RFNSA ID", CStr "2000006"); ("Latitude", CFloat S754_nan);
               ("Longitude", CFloat f_151_2)].

(** the files [main] looks for: the Optus CSV, the wireless shapefile and
    the KML file are there, the other files are not *)
Definition read_csv (path : string) : option (list csv_row) :=
  if decide (path = "/Users/minesh/Agents/sgs/mobile-sites-optus-2024.csv")
  then Some [Demo.row_sydney; Demo.row_north]
  else None.

Definition read_file (path : string) : option (geodataframe Demo.polygon) :=
  if decide (path = "/Users/minesh/Agents/sgs/nbn_coverage_wireless.shp")
  then Some {| gdf_crs := Some 7856%Z;
               gdf_rows := [Demo.feature "W 1" Demo.unit_square_mga] |}
  else if decide (path = "/Users/minesh/Agents/sgs/Coverage map - Optus - 4G - Ext Ant - 2024.kml")
  then Some {| gdf_crs := Some 4326%Z;
               gdf_rows := [Demo.feature "Area 1" Demo.unit_square] |}
  else None.

Definition env : run_env := {|
  connection_ok := true;
  path_exists := fun path => bool_decide (is_Some (read_csv path))
                             || bool_decide (is_Some (read_file path));
  csv_clock := fun _ => Demo.clock;
  frame_clock := fun _ => Demo.now
|}.

End DemoRun.

(** * The script *)

Section Ingestion.

(** ** The environment *)

(** [str(x)] for a float [x] (Python's shortest round-trip repr) *)
Variable str_of_float : pyfloat -> string.
(** [float(s)] for a string [s]; [None] when Python raises [ValueError] *)
Variable float_of_str : string -> option pyfloat.
(** [pd.read_csv(path)]: the rows of the file, [None] when it raises *)
Variable read_csv : string -> option (list csv_row).

(** PostGIS point geometries and the two functions the statement calls:
    [ST_SetSRID(ST_MakePoint(lon, lat), 4326)] and [ST_Transform(g, srid)] *)
Context {point : Type}.
Variable st_point_4326 : pyfloat -> pyfloat -> point.
Variable st_transform : point -> Z -> point.

(** shapely geometries; [to_crs] reprojects one between two EPSG codes,
    [area] is its planar area in the units of its coordinates *)
Context {geometry : Type}.
Variable to_crs : Z -> Z -> geometry -> geometry.
Variable area : geometry -> pyfloat.
(** [gpd.read_file(path)]: [None] when it raises *)
Variable read_file : string -> option (geodataframe geometry).

Local Abbreviation site_row := (site_row point).
Local Abbreviation value := (value geometry).
Local Abbreviation geo_row := (geo_row geometry).
Local Abbreviation geodataframe := (geodataframe geometry).

(** The table [mobile_sites], indexed by its unique key *)
Local Abbreviation site_table := (gmap (string * string) site_row).

(** The database as [to_postgis] sees it: table name to rows *)
Local Abbreviation database := (gmap string (list geo_row)).

(** ** MobileSiteIngestion *)

(** [str(c)] *)
Definition py_str (c : cell) : string :=
  match c with
  | CStr s => s
  | CFloat f => str_of_float f
  | CInt z => pretty z
  end.

(** [float(c)] *)
Definition py_float (c : cell) : py pyfloat :=
  match c with
  | CStr s =>
      match float_of_str s with
      | Some f => Ret f
      | None => Raise (ValueError ("could not convert string to float: " +:+ s))
      end
  | CFloat f => Ret f
  | CInt z => Ret (float_of_Z z)
  end.

(** [row[col]] *)
Definition row_get (row : csv_row) (col : string) : py cell :=
  match row !! col with
  | Some c => Ret c
  | None => Raise (KeyError col)
  end.

(** [col in row and str(row[col]).upper() == 'Y'] *)
Definition flag_set (row : csv_row) (col : string) : bool :=
  match row !! col with
  | Some c => bool_decide (PyStr.upper (py_str c) = "Y")
  | None => false
  end.

(** [parse_frequency_bands] *)
Definition parse_frequency_bands (row : csv_row) (carrier : string) : list string :=
  let select (band_columns : list string) := filter (fun band => flag_set row band = true) band_columns in
  if decide (PyStr.lower carrier = "optus") then select Bands.optus
  else if decide (PyStr.lower carrier = "telstra") then select Bands.telstra
  else if decide (PyStr.lower carrier = "tpg") then select Bands.tpg
  else [].

(** The body of the [for idx, row in df.iterrows()] loop, inside its
    [try]. [Ret None] is the [continue] of the coordinate check,
    [Ret (Some record)] is [processed_records.append(record)], [Raise e]
    is an exception reaching the row's [except]. [clock] holds the two
    readings of [datetime.now()] the body takes. *)
Definition process_row (clock : datetime * datetime) (row : csv_row)
    (carrier_name : string) : py (option site_record) :=
  let freq_bands := parse_frequency_bands row carrier_name in
  let technology := determine_technology freq_bands in
  c_lat ← row_get row "Latitude";
  lat ← py_float c_lat;
  c_lon ← row_get row "Longitude";
  lon ← py_float c_lon;
  if negb (in_australia lat lon) then
    (* the warning formats row['RFNSA ID'] *)
    _ ← row_get row "RFNSA ID";
    mret None
  else
    rfnsa ← row_get row "RFNSA ID";
    let record := {|
      site_id := py_str rfnsa;
      carrier := carrier_name;
      site_name := carrier_name +:+ " Site " +:+ py_str rfnsa;
      latitude := lat;
      longitude := lon;
      frequency_bands := freq_bands;
      technology := technology;
      operational_status := "Active";
      data_source := "CSV_" +:+ carrier_name +:+ "_" +:+ pretty (dt_year clock.1);
      last_updated := clock.2;
      site_type := None
    |} in
    if flag_set row "Co_funded" then
      let name' :=
        match row !! "Co_contribution_program" with
        | Some program => site_name record +:+ " (" +:+ py_str program +:+ ")"
        | None => site_name record
        end in
      mret (Some {|
        site_id := site_id record;
        carrier := carrier record;
        site_name := name';
        latitude := latitude record;
        longitude := longitude record;
        frequency_bands := frequency_bands record;
        technology := technology;
        operational_status := operational_status record;
        data_source := data_source record;
        last_updated := last_updated record;
        site_type := Some (Some "Co-funded")
      |})
    else mret (Some record).

(** What a row contributes to [processed_records] *)
Definition emitted (clock : nat -> datetime * datetime) (carrier_name : string)
    (idx : nat) (row : csv_row) : option site_record :=
  match process_row (clock idx) row carrier_name with
  | Ret (Some record) => Some record
  | _ => None
  end.

(** The row loop of [process_csv_file]: [idx] is the index of the next
    row, [processed_records] the list built so far. *)
Fixpoint rows_loop (clock : nat -> datetime * datetime) (carrier_name : string)
    (idx : nat) (rows : list csv_row) (processed_records : list site_record)
    : list site_record :=
  match rows with
  | [] => processed_records
  | row :: rest =>
      match process_row (clock idx) row carrier_name with
      | Ret (Some record) =>
          rows_loop clock carrier_name (S idx) rest (processed_records ++ [record])
      | Ret None => rows_loop clock carrier_name (S idx) rest processed_records
      | Raise _ => rows_loop clock carrier_name (S idx) rest processed_records
      end
  end.

(** [process_csv_file] *)
Definition process_csv_file (clock : nat -> datetime * datetime)
    (file_path carrier_name : string) : list site_record :=
  match read_csv file_path with
  | Some df => rows_loop clock carrier_name 0 df []
  | None => []
  end.

(** ** The [mobile_sites] table and [insert_mobile_sites] *)

(** The row the [VALUES] clause proposes (SQL's [EXCLUDED]) *)
Definition excluded_row (record : site_record) (st : option string) : site_row := {|
  row_site_name := site_name record;
  row_latitude := latitude record;
  row_longitude := longitude record;
  row_location := st_point_4326 (longitude record) (latitude record);
  row_location_mga56 :=
    st_transform (st_point_4326 (longitude record) (latitude record)) 7856;
  row_frequency_bands := frequency_bands record;
  row_technology := technology record;
  row_operational_status := operational_status record;
  row_data_source := data_source record;
  row_last_updated := last_updated record;
  row_site_type := st
|}.

(** The [DO UPDATE SET] list applied to the stored row *)
Definition do_update (existing excluded : site_row) : site_row := {|
  row_site_name := row_site_name excluded;
  row_latitude := row_latitude excluded;
  row_longitude := row_longitude excluded;
  row_location := row_location excluded;
  row_location_mga56 := row_location_mga56 excluded;
  row_frequency_bands := row_frequency_bands excluded;
  row_technology := row_technology excluded;
  row_operational_status := row_operational_status excluded;
  row_data_source := row_data_source existing;
  row_last_updated := row_last_updated excluded;
  row_site_type := coalesce (row_site_type excluded) (row_site_type existing)
|}.

(** [cursor.execute(insert_sql, record)]: the parameter [%(site_type)s]
    is looked up in the dictionary, which raises [KeyError] when the key
    is absent. *)
Definition execute_insert (tbl : site_table) (record : site_record) : py site_table :=
  match site_type record with
  | None => Raise (KeyError "site_type")
  | Some st =>
      let key := (site_id record, carrier record) in
      let excluded := excluded_row record st in
      match tbl !! key with
      | None => Ret (<[key := excluded]> tbl)
      | Some existing => Ret (<[key := do_update existing excluded]> tbl)
      end
  end.

(** [if 'site_type' not in record: record['site_type'] = 'Standard'] *)
Definition set_default_site_type (record : site_record) : site_record :=
  match site_type record with
  | Some _ => record
  | None => {|
      site_id := site_id record;
      carrier := carrier record;
      site_name := site_name record;
      latitude := latitude record;
      longitude := longitude record;
      frequency_bands := frequency_bands record;
      technology := technology record;
      operational_status := operational_status record;
      data_source := data_source record;
      last_updated := last_updated record;
      site_type := Some (Some "Standard")
    |}
  end.

(** The [for record in records] loop. The dictionaries are updated in
    place, so the loop also yields the list as the caller sees it
    afterwards; when [execute] raises, the records from the failing one
    on keep what they had (the failing one with its default set). *)
Fixpoint insert_loop (tbl : site_table) (records : list site_record)
    (inserted_count : nat) : list site_record * py (site_table * nat) :=
  match records with
  | [] => ([], Ret (tbl, inserted_count))
  | record :: rest =>
      let record := set_default_site_type record in
      match execute_insert tbl record with
      | Raise e => (record :: rest, Raise e)
      | Ret tbl' =>
          let '(rest', result) := insert_loop tbl' rest (S inserted_count) in
          (record :: rest', result)
      end
  end.

(** [insert_mobile_sites]: the table after the call (committed, or rolled
    back to what it was when an exception reaches the [except]), the
    records as the caller sees them afterwards, and the returned count.
    The only constraint of the table is its unique key, and the connection
    does not fail: the one exception modelled is the missing parameter. *)
Definition insert_mobile_sites (tbl : site_table) (records : list site_record)
    : site_table * list site_record * nat :=
  match records with
  | [] => (tbl, records, 0)
  | _ =>
      match insert_loop tbl records 0 with
      | (records', Ret (tbl', inserted_count)) => (tbl', records', inserted_count)
      | (records', Raise _) => (tbl, records', 0)
      end
  end.

(** *** The loop as a function on tables

    The definitions below restate the loop for the proofs: what one
    iteration does to the table, and what the table holds for one key. *)

(** The value bound to [%(site_type)s] once the default is set *)
Definition sql_site_type (record : site_record) : option string :=
  default (Some "Standard") (site_type record).

(** The stored row after a conflict-or-insert with proposed row [excluded] *)
Definition merge_row (stored : option site_row) (excluded : site_row) : site_row :=
  match stored with
  | None => excluded
  | Some existing => do_update existing excluded
  end.

(** One iteration: default, then [execute] *)
Definition upsert (tbl : site_table) (record : site_record) : site_table :=
  let key := (site_id record, carrier record) in
  <[key := merge_row (tbl !! key) (excluded_row record (sql_site_type record))]> tbl.

(** One iteration seen from key [k] *)
Definition upsert_at (k : string * string) (stored : option site_row)
    (record : site_record) : option site_row :=
  if decide ((site_id record, carrier record) = k)
  then Some (merge_row stored (excluded_row record (sql_site_type record)))
  else stored.

(** The [site_type] column under a sequence of upserts of key [k] *)
Definition site_type_at (k : string * string) (st : option string)
    (record : site_record) : option string :=
  if decide ((site_id record, carrier record) = k)
  then coalesce (sql_site_type record) st
  else st.

(** [main]'s step for one CSV file: the records of the adapter go to
    [insert_mobile_sites] *)
Definition ingest_mobile_file (tbl : site_table) (records : list site_record)
    : site_table :=
  (insert_mobile_sites tbl records).1.1.

(** Every stored row has a site type of the classification *)
Definition site_types_classified (tbl : site_table) : Prop :=
  forall key row, tbl !! key = Some row ->
    row_site_type row = Some "Standard" \/ row_site_type row = Some "Co-funded".

(** ** Coverage polygons: the NBN shapefile and the Optus KML adapters *)

(** [gdf.to_crs(epsg=target)]: raises on a frame without CRS *)
Definition gdf_to_crs (target : Z) (gdf : geodataframe) : py geodataframe :=
  match gdf_crs gdf with
  | None => Raise (ValueError "Cannot transform naive geometries")
  | Some source =>
      Ret {| gdf_crs := Some target;
             gdf_rows := map (fun r => {| geom := to_crs source target (geom r);
                                         attrs := attrs r |}) (gdf_rows gdf) |}
  end.

(** [gdf[col] = v] with one value for every row *)
Definition assign (col : string) (v : value) (gdf : geodataframe) : geodataframe :=
  {| gdf_crs := gdf_crs gdf;
     gdf_rows := map (fun r => {| geom := geom r; attrs := <[col := v]> (attrs r) |})
                     (gdf_rows gdf) |}.

(** [gdf[col] = f(row)] computed row by row *)
Definition assign_with (col : string) (f : geo_row -> value) (gdf : geodataframe)
    : geodataframe :=
  {| gdf_crs := gdf_crs gdf;
     gdf_rows := map (fun r => {| geom := geom r; attrs := <[col := f r]> (attrs r) |})
                     (gdf_rows gdf) |}.

(** [gdf.to_postgis(name, engine, if_exists=...)] *)
Definition to_postgis_replace (name : string) (gdf : geodataframe) (db : database)
    : database :=
  <[name := gdf_rows gdf]> db.

Definition to_postgis_append (name : string) (gdf : geodataframe) (db : database)
    : database :=
  <[name := default [] (db !! name) ++ gdf_rows gdf]> db.

(** *** NBNDataIngestion *)

(** [f"nbn_{coverage_type.lower().replace(' ', '_')}_coverage"] *)
Definition nbn_table_name (coverage_type : string) : string :=
  "nbn_" +:+ PyStr.replace_char " " "_" (PyStr.lower coverage_type) +:+ "_coverage".

(** The frame [process_nbn_shapefile] hands to [to_postgis]; [clock] holds
    the two readings of [datetime.now()]. *)
Definition nbn_frame (clock : datetime * datetime) (coverage_type : string)
    (gdf : geodataframe) : py geodataframe :=
  let gdf :=
    match gdf_crs gdf with
    | None => {| gdf_crs := Some 7856%Z; gdf_rows := gdf_rows gdf |}
    | Some _ => gdf
    end in
  gdf ← gdf_to_crs 4326 gdf;
  let gdf := assign "coverage_type" (VStr coverage_type) gdf in
  let gdf := assign "data_source"
               (VStr ("NBN_Shapefile_" +:+ pretty (dt_year clock.1))) gdf in
  let gdf := assign "last_updated" (VTime clock.2) gdf in
  mret gdf.

(** [process_nbn_shapefile]: the database afterwards and the returned count *)
Definition process_nbn_shapefile (clock : datetime * datetime) (db : database)
    (shapefile_path coverage_type : string) : database * nat :=
  match read_file shapefile_path with
  | None => (db, 0)
  | Some gdf =>
      match nbn_frame clock coverage_type gdf with
      | Raise _ => (db, 0)
      | Ret gdf =>
          let table_name := nbn_table_name coverage_type in
          (to_postgis_replace table_name gdf db, length (gdf_rows gdf))
      end
  end.

(** *** KMLDataIngestion *)

(** [gdf.rename(columns={old: new})] on one row (a column already named
    [new] is replaced; pandas would keep both under one label, and
    [process_optus_kml] drops the renamed columns again) *)
Definition rename_column (old new : string) (r : geo_row) : geo_row :=
  match attrs r !! old with
  | Some v => {| geom := geom r; attrs := <[new := v]> (delete old (attrs r)) |}
  | None => r
  end.

(** [gdf[columns]] on one row: every listed column must exist *)
Fixpoint select_columns (columns : list string) (a : gmap string value)
    : py (gmap string value) :=
  match columns with
  | [] => mret ∅
  | col :: rest =>
      match a !! col with
      | None => Raise (KeyError col)
      | Some v => kept ← select_columns rest a; mret (<[col := v]> kept)
      end
  end.

Fixpoint select_rows (columns : list string) (rows : list geo_row) : py (list geo_row) :=
  match rows with
  | [] => mret []
  | r :: rest =>
      a ← select_columns columns (attrs r);
      rest' ← select_rows columns rest;
      mret ({| geom := geom r; attrs := a |} :: rest')
  end.

(** The non-geometry names of [columns_to_keep] *)
Definition columns_to_keep : list string :=
  ["carrier"; "technology"; "coverage_type"; "signal_strength";
   "area_sqkm"; "last_updated"; "data_source"].

(** [gdf_mga56.geometry.area / 1_000_000] for one row, where [gdf_mga56]
    is the copy whose active geometry is the column ['geometry_mga56'] *)
Definition area_sqkm_of (r : geo_row) : py value :=
  match attrs r !! "geometry_mga56" with
  | Some (VGeom g) => Ret (VFloat (float_div (area g) (float_of_Z 1000000)))
  | _ => Raise (KeyError "geometry_mga56")
  end.

Fixpoint with_area_sqkm (rows : list geo_row) : py (list geo_row) :=
  match rows with
  | [] => mret []
  | r :: rest =>
      a ← area_sqkm_of r;
      rest' ← with_area_sqkm rest;
      mret ({| geom := geom r; attrs := <["area_sqkm" := a]> (attrs r) |} :: rest')
  end.

(** [gdf.geometry.to_crs(target)]: the active geometry column reprojected
    from the CRS of the frame; raises on a frame without CRS *)
Definition geometry_to_crs (target : Z) (gdf : geodataframe) : py (geo_row -> value) :=
  match gdf_crs gdf with
  | None => Raise (ValueError "Cannot transform naive geometries")
  | Some source => Ret (fun r => VGeom (to_crs source target (geom r)))
  end.

(** The frame [process_optus_kml] hands to [to_postgis] *)
Definition kml_frame (clock : datetime * datetime) (gdf : geodataframe)
    : py geodataframe :=
  gdf ← (if decide (gdf_crs gdf = Some 4326%Z) then mret gdf else gdf_to_crs 4326 gdf);
  let gdf := {| gdf_crs := gdf_crs gdf;
                gdf_rows := map (fun r => rename_column "Description" "description"
                                            (rename_column "Name" "name" r))
                                (gdf_rows gdf) |} in
  let gdf := assign "carrier" (VStr "Optus") gdf in
  let gdf := assign "technology" (VStr "4G") gdf in
  let gdf := assign "coverage_type" (VStr "4G External Antenna") gdf in
  let gdf := assign "signal_strength" (VStr "Good") gdf in
  let gdf := assign "data_source"
               (VStr ("Optus_KML_" +:+ pretty (dt_year clock.1))) gdf in
  let gdf := assign "last_updated" (VTime clock.2) gdf in
  projected ← geometry_to_crs 7856 gdf;
  let gdf := assign_with "geometry_mga56" projected gdf in
  rows ← with_area_sqkm (gdf_rows gdf);
  rows ← select_rows columns_to_keep rows;
  mret {| gdf_crs := gdf_crs gdf; gdf_rows := rows |}.

(** [process_optus_kml]: the database afterwards and the returned count *)
Definition process_optus_kml (clock : datetime * datetime) (db : database)
    (kml_path : string) : database * nat :=
  match read_file kml_path with
  | None => (db, 0)
  | Some gdf =>
      match kml_frame clock gdf with
      | Raise _ => (db, 0)
      | Ret gdf =>
          (to_postgis_append "mobile_coverage_areas" gdf db, length (gdf_rows gdf))
      end
  end.

(** *** The stored rows in closed form

    The definitions below describe, feature by feature, the rows the two
    adapters store; the properties section proves that the adapters
    produce exactly these. *)

(** The rows of a table; a table that does not exist has none *)
Definition table_rows (db : database) (name : string) : list geo_row :=
  default [] (db !! name).

(** The rows stored for an NBN coverage category *)
Definition stored_rows (db : database) (coverage_type : string) : list geo_row :=
  table_rows db (nbn_table_name coverage_type).

(** What a feature of an NBN shapefile declared in CRS [source] becomes *)
Definition nbn_row (source : Z) (clock : datetime * datetime) (coverage_type : string)
    (r : geo_row) : geo_row :=
  {| geom := to_crs source 4326 (geom r);
     attrs := <["last_updated" := VTime clock.2]>
                (<["data_source" := VStr ("NBN_Shapefile_" +:+ pretty (dt_year clock.1))]>
                   (<["coverage_type" := VStr coverage_type]> (attrs r))) |}.

(** The geometry of a KML feature once the frame is in EPSG:4326 *)
Definition kml_geometry (source : Z) (g : geometry) : geometry :=
  if decide (source = 4326%Z) then g else to_crs source 4326 g.

(** What a feature of a KML file declared in CRS [source] becomes *)
Definition kml_row (source : Z) (clock : datetime * datetime) (r : geo_row) : geo_row :=
  let g := kml_geometry source (geom r) in
  {| geom := g;
     attrs :=
       <["carrier" := VStr "Optus"]>
         (<["technology" := VStr "4G"]>
            (<["coverage_type" := VStr "4G External Antenna"]>
               (<["signal_strength" := VStr "Good"]>
                  (<["area_sqkm" :=
                       VFloat (float_div (area (to_crs 4326 7856 g)) (float_of_Z 1000000))]>
                     (<["last_updated" := VTime clock.2]>
                        (<["data_source" :=
                             VStr ("Optus_KML_" +:+ pretty (dt_year clock.1))]> ∅)))))) |}.

(** The rows [process_optus_kml] derives from the file at [kml_path]:
    one per feature when the file is readable and declares a CRS, none
    when reading or reprojecting raises *)
Definition kml_rows (clock : datetime * datetime) (kml_path : string) : list geo_row :=
  match read_file kml_path with
  | Some gdf =>
      match gdf_crs gdf with
      | Some source => map (kml_row source clock) (gdf_rows gdf)
      | None => []
      end
  | None => []
  end.

(** ** [main] *)

Definition base_path : string := "/Users/minesh/Agents/sgs".

(** [base_path / name] *)
Definition in_base (name : string) : string := base_path +:+ "/" +:+ name.

Definition mobile_files : list (string * string) :=
  [(in_base "mobile-sites-optus-2024.csv", "Optus");
   (in_base "mobile-sites-telstra-2024 (1).csv", "Telstra");
   (in_base "mobile-sites-tpg-2024.csv", "TPG")].

Definition nbn_files : list (string * string) :=
  [(in_base "nbn_coverage_fixedline.shp", "Fixed Line");
   (in_base "nbn_coverage_wireless.shp", "Wireless")].

Definition kml_file : string :=
  in_base "Coverage map - Optus - 4G - Ext Ant - 2024.kml".

(** [for file_path, carrier in mobile_files] *)
Fixpoint mobile_files_loop (env : run_env) (files : list (string * string))
    (tbl : site_table) (total_mobile_records : nat) : site_table * nat :=
  match files with
  | [] => (tbl, total_mobile_records)
  | (file_path, carrier) :: rest =>
      if path_exists env file_path then
        let records := process_csv_file (csv_clock env file_path) file_path carrier in
        let '(tbl', _, inserted) := insert_mobile_sites tbl records in
        mobile_files_loop env rest tbl' (total_mobile_records + inserted)
      else mobile_files_loop env rest tbl total_mobile_records
  end.

(** [for file_path, coverage_type in nbn_files] *)
Fixpoint nbn_files_loop (env : run_env) (files : list (string * string))
    (db : database) (total_nbn_records : nat) : database * nat :=
  match files with
  | [] => (db, total_nbn_records)
  | (file_path, coverage_type) :: rest =>
      if path_exists env file_path then
        let '(db', inserted) :=
          process_nbn_shapefile (frame_clock env file_path) db file_path coverage_type in
        nbn_files_loop env rest db' (total_nbn_records + inserted)
      else nbn_files_loop env rest db total_nbn_records
  end.

(** [main]: the exit code, the two stores afterwards, and the three totals
    of the summary it logs (none when it exits early) *)
Definition main (env : run_env) (tbl : site_table) (db : database)
    : nat * (site_table * database) * option (nat * nat * nat) :=
  if negb (connection_ok env) then (1, (tbl, db), None)
  else
    let '(tbl', total_mobile_records) := mobile_files_loop env mobile_files tbl 0 in
    let '(db', total_nbn_records) := nbn_files_loop env nbn_files db 0 in
    let '(db'', total_kml_records) :=
      if path_exists env kml_file
      then process_optus_kml (frame_clock env kml_file) db' kml_file
      else (db', 0) in
    (0, (tbl', db''), Some (total_mobile_records, total_nbn_records, total_kml_records)).

(** ** Notions used to state further properties *)

(** The band columns [parse_frequency_bands] looks at for a carrier *)
Definition carrier_columns (carrier : string) : list string :=
  if decide (PyStr.lower carrier = "optus") then Bands.optus
  else if decide (PyStr.lower carrier = "telstra") then Bands.telstra
  else if decide (PyStr.lower carrier = "tpg") then Bands.tpg
  else [].

(** The generation a technology class stands for *)
Definition technology_rank (technology : string) : nat :=
  if decide (technology = "5G") then 4
  else if decide (technology = "4G/LTE") then 3
  else if decide (technology = "3G") then 2
  else if decide (technology = "2G") then 1
  else 0.

(** The unique key of the row a record is upserted into *)
Definition record_key (record : site_record) : string * string :=
  (site_id record, carrier record).

(** The part of a coverage label that reaches the table name *)
Definition normalized_label (coverage_type : string) : string :=
  PyStr.replace_char " " "_" (PyStr.lower coverage_type).

(** The records [main] hands to [insert_mobile_sites], file after file *)
Definition main_records (env : run_env) (files : list (string * string))
    : list site_record :=
  flat_map (fun file : string * string =>
              if path_exists env file.1
              then process_csv_file (csv_clock env file.1) file.1 file.2
              else []) files.

(** What one NBN file listed in [main] does to the table called [name] *)
Definition nbn_file_effect (env : run_env) (name : string)
    (rows : option (list geo_row)) (file : string * string) : option (list geo_row) :=
  if path_exists env file.1 then
    match read_file file.1 with
    | Some gdf =>
        if decide (nbn_table_name file.2 = name)
        then Some (map (nbn_row (default 7856%Z (gdf_crs gdf))
                          (frame_clock env file.1) file.2) (gdf_rows gdf))
        else rows
    | None => rows
    end
  else rows.

(** The number of features of one NBN file as [main] counts it *)
Definition nbn_file_count (env : run_env) (file : string * string) : nat :=
  if path_exists env file.1 then
    match read_file file.1 with
    | Some gdf => length (gdf_rows gdf)
    | None => 0
    end
  else 0.

(** The rows [main] adds to [mobile_coverage_areas] *)
Definition main_kml_rows (env : run_env) : list geo_row :=
  if path_exists env kml_file then kml_rows (frame_clock env kml_file) kml_file else [].

(** * Properties *)

(** ** Strings and [any] *)

Lemma app_cons (a : Ascii.ascii) (s t : string) : String a s +:+ t = String a (s +:+ t).
Proof. reflexivity. Qed.

Lemma prefix_spec (needle hay : string) :
  String.prefix needle hay = true <-> exists post, hay = needle +:+ post.
Proof.
  revert hay. induction needle as [|a needle IH]; intros hay.
  - destruct hay; simpl; split; eauto.
  - destruct hay as [|b hay]; simpl.
    + split; [discriminate | intros [post H]; discriminate].
    + destruct (ascii_dec a b) as [->|Hne].
      * rewrite IH. split; intros [post H]; exists post; rewrite app_cons in *; congruence.
      * split; [discriminate | intros [post H]; rewrite app_cons in H; congruence].
Qed.

Lemma contains_spec (needle hay : string) :
  PyStr.contains needle hay = true <-> PyStr.substring_of needle hay.
Proof.
  unfold PyStr.substring_of.
  induction hay as [|c hay IH].
  - change (PyStr.contains needle "") with (String.prefix needle "" || false).
    rewrite orb_false_r, prefix_spec. split.
    + intros [post H]. exists "", post. exact H.
    + intros (pre & post & H). destruct pre; [|discriminate]. eauto.
  - change (PyStr.contains needle (String c hay))
      with (String.prefix needle (String c hay) || PyStr.contains needle hay).
    rewrite orb_true_iff, prefix_spec, IH. split.
    + intros [[post H]|(pre & post & H)].
      * exists "", post. exact H.
      * exists (String c pre), post. rewrite app_cons. congruence.
    + intros (pre & post & H). destruct pre as [|c' pre]; [|rewrite app_cons in H].
      * left. eauto.
      * right. exists pre, post. congruence.
Qed.

Lemma py_any_spec {A} (p : A -> bool) (xs : list A) :
  py_any p xs = true <-> exists x, x ∈ xs /\ p x = true.
Proof.
  induction xs as [|x xs IH]; simpl.
  - split; [discriminate | intros (x & Hx & _); inversion Hx].
  - destruct (p x) eqn:Hp.
    + split; [|done]. intros _. exists x. split; [left | done].
    + rewrite IH. split; intros (y & Hy & Hpy).
      * exists y. split; [by right | done].
      * inversion Hy; subst; [congruence | eauto].
Qed.

(** [py_any] only depends on which elements occur. *)
Lemma py_any_same_elements {A} (p : A -> bool) (xs ys : list A) :
  (forall x, x ∈ xs <-> x ∈ ys) -> py_any p xs = py_any p ys.
Proof.
  intros H. apply eq_true_iff_eq. rewrite !py_any_spec.
  split; intros (x & Hx & Hp); exists x; split; auto; by apply H.
Qed.

(** ** Technology class *)

Lemma any_marker (marker : string) (bands : list string) :
  py_any (fun band => PyStr.contains marker band) bands = true <-> has_marker marker bands.
Proof.
  rewrite py_any_spec. unfold has_marker.
  split; intros (b & Hb & H); exists b; split; auto; by apply contains_spec.
Qed.

Lemma any_marker_3g (bands : list string) :
  py_any (fun band => PyStr.contains "UMTS" band || PyStr.contains "WCDMA" band) bands = true
  <-> has_marker "UMTS" bands \/ has_marker "WCDMA" bands.
Proof.
  rewrite py_any_spec. unfold has_marker. split.
  - intros (b & Hb & H). apply orb_true_iff in H as [H|H];
      [left | right]; exists b; split; auto; by apply contains_spec.
  - intros [(b & Hb & H)|(b & Hb & H)]; exists b; split; auto;
      apply orb_true_iff; [left | right]; by apply contains_spec.
Qed.

Lemma not_true_iff (b : bool) (P : Prop) : (b = true <-> P) -> ~ P -> b = false.
Proof. intros H HP. destruct b; [|done]. exfalso. by apply HP, H. Qed.

(** C2: [determine_technology] follows the precedence 5G, 4G/LTE, 3G, 2G,
    Unknown on the markers NR, LTE, UMTS or WCDMA, GSM; it always yields
    one of these five classes; it depends only on which bands occur (so it
    is invariant under reordering and repetition); and bands with both an
    LTE and an NR marker give 5G. *)
Theorem determine_technology_precedence (bands : list string) :
  (has_marker "NR" bands -> determine_technology bands = "5G") /\
  (~ has_marker "NR" bands -> has_marker "LTE" bands ->
     determine_technology bands = "4G/LTE") /\
  (~ has_marker "NR" bands -> ~ has_marker "LTE" bands ->
     has_marker "UMTS" bands \/ has_marker "WCDMA" bands ->
     determine_technology bands = "3G") /\
  (~ has_marker "NR" bands -> ~ has_marker "LTE" bands ->
     ~ (has_marker "UMTS" bands \/ has_marker "WCDMA" bands) ->
     has_marker "GSM" bands ->
     determine_technology bands = "2G") /\
  (~ has_marker "NR" bands -> ~ has_marker "LTE" bands ->
     ~ (has_marker "UMTS" bands \/ has_marker "WCDMA" bands) ->
     ~ has_marker "GSM" bands ->
     determine_technology bands = "Unknown") /\
  determine_technology bands ∈ ["5G"; "4G/LTE"; "3G"; "2G"; "Unknown"] /\
  (forall bands' : list string,
     (forall band, band ∈ bands <-> band ∈ bands') ->
     determine_technology bands' = determine_technology bands) /\
  (forall bands' : list string,
     bands' ≡ₚ bands -> determine_technology bands' = determine_technology bands) /\
  (has_marker "LTE" bands -> has_marker "NR" bands -> determine_technology bands = "5G").
Proof.
  assert (H5 : has_marker "NR" bands -> determine_technology bands = "5G").
  { intros H. unfold determine_technology. apply any_marker in H. by rewrite H. }
  assert (Hset : forall bands' : list string,
     (forall band, band ∈ bands <-> band ∈ bands') ->
     determine_technology bands' = determine_technology bands).
  { intros bands' H. unfold determine_technology.
    by rewrite !(py_any_same_elements _ bands' bands) by (intros x; symmetry; apply H). }
  repeat split; auto.
  - intros Hn Hl. unfold determine_technology.
    rewrite (not_true_iff _ _ (any_marker _ _) Hn).
    apply any_marker in Hl. by rewrite Hl.
  - intros Hn Hl H3. unfold determine_technology.
    rewrite (not_true_iff _ _ (any_marker _ _) Hn), (not_true_iff _ _ (any_marker _ _) Hl).
    apply any_marker_3g in H3. by rewrite H3.
  - intros Hn Hl H3 H2. unfold determine_technology.
    rewrite (not_true_iff _ _ (any_marker _ _) Hn), (not_true_iff _ _ (any_marker _ _) Hl),
      (not_true_iff _ _ (any_marker_3g _) H3).
    apply any_marker in H2. by rewrite H2.
  - intros Hn Hl H3 H2. unfold determine_technology.
    by rewrite (not_true_iff _ _ (any_marker _ _) Hn), (not_true_iff _ _ (any_marker _ _) Hl),
      (not_true_iff _ _ (any_marker_3g _) H3), (not_true_iff _ _ (any_marker _ _) H2).
  - unfold determine_technology.
    repeat (match goal with |- context [if ?b then _ else _] => destruct b end);
      set_solver.
  - intros bands' Hp. apply Hset. intros band. by rewrite Hp.
Qed.

(** ** The mobile-site adapter and the upsert *)

Lemma rows_loop_acc clock carrier_name idx rows acc :
  rows_loop clock carrier_name idx rows acc =
  acc ++ rows_loop clock carrier_name idx rows [].
Proof.
  revert idx acc. induction rows as [|row rows IH]; intros idx acc; simpl.
  - by rewrite app_nil_r.
  - destruct (process_row (clock idx) row carrier_name) as [[record|]|e]; auto.
    rewrite (IH _ (acc ++ [record])), (IH _ [record]). by rewrite <- app_assoc.
Qed.

Lemma rows_loop_cons clock carrier_name idx row rows :
  rows_loop clock carrier_name idx (row :: rows) [] =
  from_option (fun r => [r]) [] (emitted clock carrier_name idx row)
    ++ rows_loop clock carrier_name (S idx) rows [].
Proof.
  simpl. unfold emitted.
  destruct (process_row (clock idx) row carrier_name) as [[record|]|e]; simpl; auto.
  apply rows_loop_acc.
Qed.

Lemma rows_loop_app clock carrier_name idx rows1 rows2 :
  rows_loop clock carrier_name idx (rows1 ++ rows2) [] =
  rows_loop clock carrier_name idx rows1 []
    ++ rows_loop clock carrier_name (idx + length rows1) rows2 [].
Proof.
  revert idx. induction rows1 as [|row rows1 IH]; intros idx.
  - simpl. by rewrite Nat.add_0_r.
  - rewrite <- app_comm_cons, !rows_loop_cons, IH, <- app_assoc.
    simpl length. by rewrite Nat.add_succ_r.
Qed.

Lemma rows_loop_elem clock carrier_name idx rows record :
  record ∈ rows_loop clock carrier_name idx rows [] <->
  exists i row, rows !! i = Some row /\
                emitted clock carrier_name (idx + i) row = Some record.
Proof.
  revert idx. induction rows as [|row rows IH]; intros idx.
  - simpl. split; [intros H; inversion H | intros (i & r & H & _); done].
  - rewrite rows_loop_cons, elem_of_app, IH. split.
    + intros [H|(i & r & Hi & He)].
      * exists 0, row. rewrite Nat.add_0_r. split; [done|].
        destruct (emitted clock carrier_name idx row); simpl in H; [|inversion H].
        apply list_elem_of_singleton in H. by subst.
      * exists (S i), r. rewrite Nat.add_succ_r. done.
    + intros ([|i] & r & Hi & He).
      * left. simpl in Hi. injection Hi as ->. rewrite Nat.add_0_r in He.
        rewrite He. simpl. by apply list_elem_of_singleton.
      * right. exists i, r. rewrite Nat.add_succ_r in He. done.
Qed.


(** Everything [process_row] puts into an emitted record. *)
Lemma process_row_emits clk row carrier_name record :
  process_row clk row carrier_name = Ret (Some record) ->
  exists c_lat c_lon rfnsa,
    row !! "Latitude" = Some c_lat /\ py_float c_lat = Ret (latitude record) /\
    row !! "Longitude" = Some c_lon /\ py_float c_lon = Ret (longitude record) /\
    row !! "RFNSA ID" = Some rfnsa /\
    in_australia (latitude record) (longitude record) = true /\
    site_id record = py_str rfnsa /\
    carrier record = carrier_name /\
    frequency_bands record = parse_frequency_bands row carrier_name /\
    technology record = determine_technology (frequency_bands record) /\
    (site_type record = None \/ site_type record = Some (Some "Co-funded")).
Proof.
  unfold process_row, row_get.
  destruct (row !! "Latitude") as [c_lat|]; [|discriminate].
  simpl. destruct (py_float c_lat) as [lat|] eqn:Hlat; [|discriminate].
  destruct (row !! "Longitude") as [c_lon|]; [|discriminate].
  simpl. destruct (py_float c_lon) as [lon|] eqn:Hlon; [|discriminate].
  simpl. destruct (in_australia lat lon) eqn:Hb; simpl.
  - destruct (row !! "RFNSA ID") as [rfnsa|]; [|discriminate].
    simpl. destruct (flag_set row "Co_funded");
      intros [= <-]; exists c_lat, c_lon, rfnsa; simpl; auto 20.
  - destruct (row !! "RFNSA ID"); discriminate.
Qed.

(** *** The upsert loop *)

Lemma set_default_sql_site_type record :
  site_type (set_default_site_type record) = Some (sql_site_type record).
Proof.
  unfold set_default_site_type, sql_site_type.
  destruct (site_type record) eqn:H; simpl; [|done]. by rewrite H.
Qed.

Lemma set_default_idem record :
  set_default_site_type (set_default_site_type record) = set_default_site_type record.
Proof.
  unfold set_default_site_type.
  destruct (site_type record) eqn:H; simpl; [|done]. by rewrite H.
Qed.

Lemma excluded_row_set_default record st :
  excluded_row (set_default_site_type record) st = excluded_row record st.
Proof. unfold set_default_site_type. by destruct (site_type record). Qed.

Lemma sql_site_type_set_default record :
  sql_site_type (set_default_site_type record) = sql_site_type record.
Proof. unfold sql_site_type. by rewrite set_default_sql_site_type. Qed.

Lemma upsert_set_default (tbl : site_table) record :
  upsert tbl (set_default_site_type record) = upsert tbl record.
Proof.
  unfold upsert.
  rewrite sql_site_type_set_default, excluded_row_set_default.
  unfold set_default_site_type. by destruct (site_type record).
Qed.

(** Once the default is set, [execute] does not raise. *)
Lemma execute_insert_set_default (tbl : site_table) record :
  execute_insert tbl (set_default_site_type record) = Ret (upsert tbl record).
Proof.
  unfold execute_insert. rewrite set_default_sql_site_type.
  rewrite excluded_row_set_default.
  replace (site_id (set_default_site_type record), carrier (set_default_site_type record))
    with (site_id record, carrier record)
    by (unfold set_default_site_type; by destruct (site_type record)).
  unfold upsert, merge_row. by destruct (tbl !! _).
Qed.

Lemma insert_loop_spec (tbl : site_table) records n :
  insert_loop tbl records n =
  (map set_default_site_type records, Ret (foldl upsert tbl records, n + length records)).
Proof.
  revert tbl n. induction records as [|record records IH]; intros tbl n; simpl.
  - by rewrite Nat.add_0_r.
  - rewrite execute_insert_set_default, IH. by rewrite Nat.add_succ_r.
Qed.

Lemma insert_mobile_sites_spec (tbl : site_table) records :
  insert_mobile_sites tbl records =
  (foldl upsert tbl records, map set_default_site_type records, length records).
Proof.
  unfold insert_mobile_sites. destruct records as [|r rs]; [done|].
  by rewrite insert_loop_spec.
Qed.

Lemma foldl_upsert_set_default (tbl : site_table) records :
  foldl upsert tbl (map set_default_site_type records) = foldl upsert tbl records.
Proof.
  revert tbl. induction records as [|r rs IH]; intros tbl; simpl; [done|].
  by rewrite upsert_set_default.
Qed.

Lemma upsert_lookup (tbl : site_table) record k :
  upsert tbl record !! k = upsert_at k (tbl !! k) record.
Proof.
  unfold upsert, upsert_at. case_decide as Hk.
  - subst k. by rewrite lookup_insert_eq.
  - by rewrite lookup_insert_ne.
Qed.

Lemma foldl_upsert_lookup (tbl : site_table) records k :
  foldl upsert tbl records !! k = foldl (upsert_at k) (tbl !! k) records.
Proof.
  revert tbl. induction records as [|r rs IH]; intros tbl; simpl; [done|].
  by rewrite IH, upsert_lookup.
Qed.

(** *** Upserting a batch twice *)

Lemma do_update_congr (a b excluded : site_row) :
  row_data_source a = row_data_source b ->
  coalesce (row_site_type excluded) (row_site_type a)
    = coalesce (row_site_type excluded) (row_site_type b) ->
  do_update a excluded = do_update b excluded.
Proof. unfold do_update. by intros -> ->. Qed.

Lemma do_update_id (a excluded : site_row) :
  row_data_source a = row_data_source excluded ->
  coalesce (row_site_type excluded) (row_site_type a) = row_site_type excluded ->
  do_update a excluded = excluded.
Proof. unfold do_update. intros -> ->. by destruct excluded. Qed.

Lemma merge_row_site_type (stored : option (site_row)) excluded :
  row_site_type (merge_row stored excluded)
  = coalesce (row_site_type excluded) (stored ≫= row_site_type).
Proof.
  destruct stored as [existing|]; simpl; [done|].
  by destruct (row_site_type excluded).
Qed.

Lemma upsert_at_site_type k (stored : option (site_row)) record :
  upsert_at k stored record ≫= row_site_type
  = site_type_at k (stored ≫= row_site_type) record.
Proof.
  unfold upsert_at, site_type_at. case_decide; [|done].
  simpl. by rewrite merge_row_site_type.
Qed.

Lemma foldl_upsert_at_site_type k (stored : option (site_row)) records :
  foldl (upsert_at k) stored records ≫= row_site_type
  = foldl (site_type_at k) (stored ≫= row_site_type) records.
Proof.
  revert stored. induction records as [|r rs IH]; intros stored; simpl; [done|].
  by rewrite IH, upsert_at_site_type.
Qed.

Lemma site_type_at_other k st record :
  (site_id record, carrier record) <> k -> site_type_at k st record = st.
Proof. intros H. unfold site_type_at. by case_decide. Qed.

Lemma site_type_at_key k st record :
  (site_id record, carrier record) = k ->
  site_type_at k st record = coalesce (sql_site_type record) st.
Proof. intros H. unfold site_type_at. by case_decide. Qed.

Lemma upsert_at_other k (stored : option (site_row)) record :
  (site_id record, carrier record) <> k -> upsert_at k stored record = stored.
Proof. intros H. unfold upsert_at. by case_decide. Qed.

Lemma upsert_at_key k (stored : option (site_row)) record :
  (site_id record, carrier record) = k ->
  upsert_at k stored record
  = Some (merge_row stored (excluded_row record (sql_site_type record))).
Proof. intros H. unfold upsert_at. by case_decide. Qed.

Lemma foldl_site_type_at_idem k st records :
  foldl (site_type_at k) (foldl (site_type_at k) st records) records
  = foldl (site_type_at k) st records.
Proof.
  revert st. induction records as [|r rs IH] using rev_ind; intros st; [done|].
  rewrite !foldl_snoc.
  destruct (decide ((site_id r, carrier r) = k)) as [Hk|Hk].
  - rewrite !(site_type_at_key _ _ _ Hk).
    destruct (sql_site_type r); simpl; [done | apply IH].
  - rewrite !(site_type_at_other _ _ _ Hk). apply IH.
Qed.

Lemma foldl_upsert_at_data_source k (existing : site_row) records :
  exists row, foldl (upsert_at k) (Some existing) records = Some row /\
              row_data_source row = row_data_source existing.
Proof.
  revert existing. induction records as [|r rs IH]; intros existing; simpl; [eauto|].
  destruct (decide ((site_id r, carrier r) = k)) as [Hk|Hk].
  - rewrite (upsert_at_key _ _ _ Hk).
    destruct (IH (merge_row (Some existing)
                    (excluded_row r (sql_site_type r)))) as (row & -> & Hds).
    eauto.
  - rewrite (upsert_at_other _ _ _ Hk). apply IH.
Qed.

Lemma foldl_upsert_at_idem k (stored : option (site_row)) records :
  foldl (upsert_at k) (foldl (upsert_at k) stored records) records
  = foldl (upsert_at k) stored records.
Proof.
  revert stored. induction records as [|r rs IH] using rev_ind; intros stored; [done|].
  rewrite !foldl_snoc.
  destruct (decide ((site_id r, carrier r) = k)) as [Hk|Hk];
    [|rewrite !(upsert_at_other _ _ _ Hk); apply IH].
  rewrite !(upsert_at_key _ _ _ Hk).
  set (before := foldl (upsert_at k) stored rs).
  set (excluded := excluded_row r (sql_site_type r)). clearbody excluded.
  destruct (foldl_upsert_at_data_source k (merge_row before excluded) rs)
    as (row & Hrow & Hds).
  rewrite Hrow. f_equal.
  assert (Hst : coalesce (row_site_type excluded) (row_site_type row)
                = coalesce (row_site_type excluded) (before ≫= row_site_type)).
  { destruct (row_site_type excluded) as [v|] eqn:Hex; [done|]. simpl.
    change (row_site_type row) with (Some row ≫= row_site_type).
    rewrite <- Hrow, foldl_upsert_at_site_type. simpl.
    rewrite merge_row_site_type, Hex. simpl.
    unfold before. rewrite foldl_upsert_at_site_type.
    apply foldl_site_type_at_idem. }
  clearbody before. destruct before as [existing|]; simpl in *.
  - by apply do_update_congr.
  - apply do_update_id; [done|]. rewrite Hst. by destruct (row_site_type excluded).
Qed.

Lemma foldl_upsert_idem (tbl : site_table) records :
  foldl upsert (foldl upsert tbl records) records = foldl upsert tbl records.
Proof.
  apply map_eq. intros k.
  rewrite !foldl_upsert_lookup. apply foldl_upsert_at_idem.
Qed.

(** C5: running the upsert batch a second time, on the records as the
    first run left them (or on the records as they were handed in), leaves
    the table as the first run left it. *)
Theorem insert_mobile_sites_idempotent (tbl : site_table) (records : list site_record) :
  let '(tbl1, records1, _) := insert_mobile_sites tbl records in
  (insert_mobile_sites tbl1 records1).1.1 = tbl1 /\
  (insert_mobile_sites tbl1 records).1.1 = tbl1.
Proof.
  rewrite insert_mobile_sites_spec, !insert_mobile_sites_spec. simpl.
  rewrite foldl_upsert_set_default. split; apply foldl_upsert_idem.
Qed.

(** *** Invariants of the table *)

Lemma foldl_upsert_invariant (P : site_row -> Prop) (tbl : site_table) records :
  (forall record stored, record ∈ records ->
     P (merge_row stored (excluded_row record (sql_site_type record)))) ->
  (forall key row, tbl !! key = Some row -> P row) ->
  forall key row, foldl upsert tbl records !! key = Some row -> P row.
Proof.
  revert tbl. induction records as [|r rs IH]; intros tbl Hrec Htbl; simpl; [done|].
  apply IH.
  - intros record stored Hin. apply Hrec. by right.
  - intros key row. rewrite upsert_lookup.
    destruct (decide ((site_id r, carrier r) = key)) as [Hk|Hk].
    + rewrite (upsert_at_key _ _ _ Hk). intros [= <-]. apply Hrec. by left.
    + rewrite (upsert_at_other _ _ _ Hk). apply Htbl.
Qed.

Lemma process_csv_file_elem clock file_path carrier_name record :
  record ∈ process_csv_file clock file_path carrier_name ->
  exists df i row, read_csv file_path = Some df /\ df !! i = Some row /\
    process_row (clock i) row carrier_name = Ret (Some record).
Proof.
  unfold process_csv_file.
  destruct (read_csv file_path) as [df|]; [|intros H; inversion H].
  intros (i & row & Hi & He)%rows_loop_elem. exists df, i, row.
  repeat split; auto. unfold emitted in He. simpl in He.
  by destruct (process_row (clock i) row carrier_name) as [[r|]|]; simplify_eq.
Qed.

(** C3: every record the CSV adapter returns lies inside the bounds
    [-50 <= lat <= -10] and [110 <= lon <= 160]; a row whose parsed
    coordinates lie outside is not emitted, and the output for the file is
    the output for the rows before it followed by the output for the rows
    after it; so a table fed from the adapter only ever holds rows inside
    the bounds. A row at (40.0, 151.2) is rejected, one at (-33.8, 151.2)
    with an id is accepted. *)
Theorem out_of_bounds_rows_rejected (clock : nat -> datetime * datetime)
    (file_path carrier_name : string) :
  (forall record, record ∈ process_csv_file clock file_path carrier_name ->
     in_australia (latitude record) (longitude record) = true) /\
  (forall clk row c_lat c_lon lat lon,
     row !! "Latitude" = Some c_lat -> py_float c_lat = Ret lat ->
     row !! "Longitude" = Some c_lon -> py_float c_lon = Ret lon ->
     in_australia lat lon = false ->
     forall record, process_row clk row carrier_name <> Ret (Some record)) /\
  (forall pre row post c_lat c_lon lat lon,
     read_csv file_path = Some (pre ++ row :: post) ->
     row !! "Latitude" = Some c_lat -> py_float c_lat = Ret lat ->
     row !! "Longitude" = Some c_lon -> py_float c_lon = Ret lon ->
     in_australia lat lon = false ->
     process_csv_file clock file_path carrier_name =
       rows_loop clock carrier_name 0 pre []
         ++ rows_loop clock carrier_name (S (length pre)) post []) /\
  (forall tbl : site_table,
     (forall key row, tbl !! key = Some row ->
        in_australia (row_latitude row) (row_longitude row) = true) ->
     forall key row,
       ingest_mobile_file tbl (process_csv_file clock file_path carrier_name) !! key
         = Some row ->
       in_australia (row_latitude row) (row_longitude row) = true) /\
  (forall clk row,
     row !! "Latitude" = Some (CFloat f_40_0) ->
     row !! "Longitude" = Some (CFloat f_151_2) ->
     forall record, process_row clk row carrier_name <> Ret (Some record)) /\
  (forall clk row rfnsa,
     row !! "Latitude" = Some (CFloat f_m33_8) ->
     row !! "Longitude" = Some (CFloat f_151_2) ->
     row !! "RFNSA ID" = Some rfnsa ->
     exists record, process_row clk row carrier_name = Ret (Some record) /\
       latitude record = f_m33_8 /\ longitude record = f_151_2).
Proof.
  assert (Hin : forall record, record ∈ process_csv_file clock file_path carrier_name ->
     in_australia (latitude record) (longitude record) = true).
  { intros record (df & i & row & _ & _ & H)%process_csv_file_elem.
    apply process_row_emits in H as (_ & _ & _ & _ & _ & _ & _ & _ & H & _).
    exact H. }
  assert (Hout : forall clk row c_lat c_lon lat lon,
     row !! "Latitude" = Some c_lat -> py_float c_lat = Ret lat ->
     row !! "Longitude" = Some c_lon -> py_float c_lon = Ret lon ->
     in_australia lat lon = false ->
     forall record, process_row clk row carrier_name <> Ret (Some record)).
  { intros clk row c_lat c_lon lat lon Hlat Hplat Hlon Hplon Hb record H.
    apply process_row_emits in H as (c1 & c2 & _ & H1 & H2 & H3 & H4 & _ & H5 & _).
    simplify_eq. congruence. }
  split; [exact Hin|]. split; [exact Hout|]. split; [|split; [|split]].
  - intros pre row post c_lat c_lon lat lon Hread Hlat Hplat Hlon Hplon Hb.
    unfold process_csv_file. rewrite Hread.
    rewrite rows_loop_app, rows_loop_cons. simpl.
    unfold emitted.
    pose proof (Hout (clock (length pre)) row c_lat c_lon lat lon
                  Hlat Hplat Hlon Hplon Hb) as Hno.
    destruct (process_row (clock (length pre)) row carrier_name) as [[r|]|];
      [by destruct (Hno r) | done | done].
  - intros tbl Htbl key row. unfold ingest_mobile_file.
    rewrite insert_mobile_sites_spec. simpl.
    apply (foldl_upsert_invariant
             (fun row => in_australia (row_latitude row) (row_longitude row) = true));
      [|exact Htbl].
    intros record stored Hrec. destruct stored; simpl; by apply Hin.
  - intros clk row Hlat Hlon.
    by apply (Hout clk row (CFloat f_40_0) (CFloat f_151_2) f_40_0 f_151_2).
  - intros clk row rfnsa Hlat Hlon Hid.
    unfold process_row, row_get. rewrite Hlat, Hlon, Hid. simpl.
    destruct (flag_set row "Co_funded"); eexists; split; done.
Qed.


(** C9: for a carrier other than Optus, Telstra and TPG (compared in
    lower case) the band list is empty and the technology is Unknown, and
    a row with an id and coordinates inside the bounds is still emitted,
    with no bands and technology Unknown. *)
Theorem unknown_carrier_unknown_technology (carrier_name : string) :
  PyStr.lower carrier_name <> "optus" ->
  PyStr.lower carrier_name <> "telstra" ->
  PyStr.lower carrier_name <> "tpg" ->
  (forall row, parse_frequency_bands row carrier_name = []) /\
  determine_technology [] = "Unknown" /\
  (forall clk row c_lat c_lon lat lon rfnsa,
     row !! "Latitude" = Some c_lat -> py_float c_lat = Ret lat ->
     row !! "Longitude" = Some c_lon -> py_float c_lon = Ret lon ->
     row !! "RFNSA ID" = Some rfnsa ->
     in_australia lat lon = true ->
     exists record,
       process_row clk row carrier_name = Ret (Some record) /\
       carrier record = carrier_name /\
       frequency_bands record = [] /\
       technology record = "Unknown").
Proof.
  intros H1 H2 H3.
  assert (Hbands : forall row, parse_frequency_bands row carrier_name = []).
  { intros row. unfold parse_frequency_bands. by repeat case_decide. }
  repeat split; [exact Hbands|].
  intros clk row c_lat c_lon lat lon rfnsa Hlat Hplat Hlon Hplon Hid Hb.
  unfold process_row, row_get.
  rewrite Hlat. simpl. rewrite Hplat, Hlon. simpl. rewrite Hplon. simpl.
  rewrite Hb, Hid. simpl. rewrite Hbands.
  destruct (flag_set row "Co_funded"); eexists; split; done.
Qed.

(** *** The default site type *)

Lemma process_csv_file_site_type clock file_path carrier_name record :
  record ∈ process_csv_file clock file_path carrier_name ->
  sql_site_type record = Some "Standard" \/ sql_site_type record = Some "Co-funded".
Proof.
  intros (df & i & row & _ & _ & H)%process_csv_file_elem.
  apply process_row_emits in H as (_ & _ & _ & _ & _ & _ & _ & _ & _ & _ & _ & _ & _ & H).
  unfold sql_site_type. destruct H as [-> | ->]; auto.
Qed.

(** C10: a record without the key ['site_type'] gets ['Standard'] before
    the statement runs; in the loop the statement always finds the key
    (it does not raise) and, for a record that lacked it, is given
    ['Standard']; for the records of the CSV adapter the value given is
    ['Standard'] or ['Co-funded'], never NULL; and a table whose rows all
    have one of these two site types keeps that property when a file is
    ingested. *)
Theorem default_site_type_standard (tbl : site_table)
    (clock : nat -> datetime * datetime) (file_path carrier_name : string) :
  site_types_classified tbl ->
  (forall record, site_type record = None ->
     site_type (set_default_site_type record) = Some (Some "Standard")) /\
  (forall (tbl0 : site_table) records n,
     insert_loop tbl0 records n =
       (map set_default_site_type records,
        Ret (foldl upsert tbl0 records, n + length records)) /\
     forall record, record ∈ records ->
       execute_insert tbl0 (set_default_site_type record) = Ret (upsert tbl0 record) /\
       site_type (set_default_site_type record) = Some (sql_site_type record) /\
       (site_type record = None -> sql_site_type record = Some "Standard")) /\
  (forall record, record ∈ process_csv_file clock file_path carrier_name ->
     sql_site_type record = Some "Standard" \/ sql_site_type record = Some "Co-funded") /\
  site_types_classified
    (ingest_mobile_file tbl (process_csv_file clock file_path carrier_name)).
Proof.
  intros Hinv. split; [|split; [|split]].
  - intros record H. unfold set_default_site_type. by rewrite H.
  - intros tbl0 records n. split; [apply insert_loop_spec|].
    intros record _. split; [apply execute_insert_set_default|].
    split; [apply set_default_sql_site_type|].
    intros H. unfold sql_site_type. by rewrite H.
  - intros record. apply process_csv_file_site_type.
  - unfold ingest_mobile_file. rewrite insert_mobile_sites_spec. simpl.
    unfold site_types_classified.
    apply (foldl_upsert_invariant
             (fun row => row_site_type row = Some "Standard"
                         \/ row_site_type row = Some "Co-funded")); [|exact Hinv].
    intros record stored Hrec. rewrite merge_row_site_type. simpl.
    destruct (process_csv_file_site_type _ _ _ _ Hrec) as [-> | ->]; auto.
Qed.

(** *** Upserting onto an existing row *)

Lemma ingest_one_existing (tbl : site_table) record existing :
  tbl !! (site_id record, carrier record) = Some existing ->
  ingest_mobile_file tbl [record] !! (site_id record, carrier record)
  = Some (do_update existing (excluded_row record (sql_site_type record))).
Proof.
  intros H. unfold ingest_mobile_file.
  rewrite insert_mobile_sites_spec. simpl.
  rewrite upsert_lookup, upsert_at_key by done. by rewrite H.
Qed.

Lemma ingest_one_lookup (tbl : site_table) record :
  ingest_mobile_file tbl [record] !! (site_id record, carrier record)
  = Some (merge_row (tbl !! (site_id record, carrier record))
            (excluded_row record (sql_site_type record))).
Proof.
  unfold ingest_mobile_file.
  rewrite insert_mobile_sites_spec. simpl.
  by rewrite upsert_lookup, upsert_at_key.
Qed.

(** The statement does keep the stored site type when the parameter is
    NULL, that is when the record carries ['site_type': None]. *)
Lemma upsert_null_site_type_keeps_stored (tbl : site_table) record existing :
  tbl !! (site_id record, carrier record) = Some existing ->
  site_type record = Some None ->
  exists row,
    ingest_mobile_file tbl [record] !! (site_id record, carrier record) = Some row /\
    row_site_type row = row_site_type existing.
Proof.
  intros Hex Hst. rewrite (ingest_one_existing _ _ _ Hex).
  eexists. split; [done|]. unfold sql_site_type. by rewrite Hst.
Qed.

(** C1 (what the code does): when a record without the key ['site_type']
    is upserted onto a stored row of the same site, the stored site type
    becomes ['Standard'] whatever it was, and [data_source] keeps its
    stored value; all other columns take the incoming values. *)
Theorem upsert_without_site_type_stores_standard (tbl : site_table)
    (record : site_record) (existing : site_row) :
  tbl !! (site_id record, carrier record) = Some existing ->
  site_type record = None ->
  exists row,
    ingest_mobile_file tbl [record] !! (site_id record, carrier record) = Some row /\
    row_site_type row = Some "Standard" /\
    row_data_source row = row_data_source existing /\
    row_site_name row = site_name record /\
    row_latitude row = latitude record /\
    row_longitude row = longitude record /\
    row_frequency_bands row = frequency_bands record /\
    row_technology row = technology record /\
    row_operational_status row = operational_status record /\
    row_last_updated row = last_updated record.
Proof.
  intros Hex Hst. rewrite (ingest_one_existing _ _ _ Hex).
  eexists. split; [done|]. unfold sql_site_type. rewrite Hst. simpl.
  repeat split.
Qed.

(** ** The coverage adapters *)

(** *** The NBN shapefile adapter *)

Lemma nbn_frame_spec clock coverage_type (gdf : geodataframe) :
  nbn_frame clock coverage_type gdf =
  Ret {| gdf_crs := Some 4326%Z;
         gdf_rows := map (nbn_row (default 7856%Z (gdf_crs gdf)) clock coverage_type)
                         (gdf_rows gdf) |}.
Proof.
  unfold nbn_frame, gdf_to_crs, assign.
  destruct (gdf_crs gdf) as [source|] eqn:Hcrs; simpl; rewrite ?Hcrs; simpl;
    unfold mret, py_ret; by rewrite !map_map.
Qed.

Lemma process_nbn_shapefile_spec clock (db : database) shapefile_path coverage_type gdf :
  read_file shapefile_path = Some gdf ->
  process_nbn_shapefile clock db shapefile_path coverage_type =
  (<[nbn_table_name coverage_type :=
       map (nbn_row (default 7856%Z (gdf_crs gdf)) clock coverage_type) (gdf_rows gdf)]> db,
   length (gdf_rows gdf)).
Proof.
  intros Hread. unfold process_nbn_shapefile.
  rewrite Hread, nbn_frame_spec. unfold to_postgis_replace. simpl.
  by rewrite length_map.
Qed.


(** *** The KML adapter *)

Ltac lookup_inserted :=
  repeat (rewrite lookup_insert_eq || rewrite lookup_insert_ne by discriminate).

Lemma with_area_sqkm_map {A} (f : A -> geo_row) (projected : A -> geometry)
    (l : list A) :
  (forall x, attrs (f x) !! "geometry_mga56" = Some (VGeom (projected x))) ->
  with_area_sqkm (map f l) =
  Ret (map (fun x =>
              {| geom := geom (f x);
                 attrs := <["area_sqkm" :=
                              VFloat (float_div (area (projected x)) (float_of_Z 1000000))]>
                            (attrs (f x)) |}) l).
Proof.
  intros H. induction l as [|x l IH]; simpl; [done|].
  unfold area_sqkm_of. rewrite H. simpl. by rewrite IH.
Qed.

Lemma select_rows_map {A} columns (f : A -> geo_row)
    (kept : A -> gmap string (value)) (l : list A) :
  (forall x, select_columns columns (attrs (f x)) = Ret (kept x)) ->
  select_rows columns (map f l) =
  Ret (map (fun x => {| geom := geom (f x); attrs := kept x |}) l).
Proof.
  intros H. induction l as [|x l IH]; simpl; [done|].
  rewrite H. simpl. by rewrite IH.
Qed.

Lemma geom_rename_column old new (r : geo_row) :
  geom (rename_column old new r) = geom r.
Proof. unfold rename_column. by destruct (attrs r !! old). Qed.

Lemma kml_frame_spec clock (gdf : geodataframe) source :
  gdf_crs gdf = Some source ->
  kml_frame clock gdf =
  Ret {| gdf_crs := Some 4326%Z;
         gdf_rows := map (kml_row source clock) (gdf_rows gdf) |}.
Proof.
  intros Hcrs. unfold kml_frame.
  assert (Hfirst :
    (if decide (gdf_crs gdf = Some 4326%Z) then mret gdf else gdf_to_crs 4326 gdf)
    = Ret {| gdf_crs := Some 4326%Z;
             gdf_rows := map (fun r => {| geom := kml_geometry source (geom r);
                                         attrs := attrs r |}) (gdf_rows gdf) |}).
  { unfold kml_geometry, gdf_to_crs. rewrite Hcrs.
    destruct (decide (Some source = Some 4326%Z)) as [[= ->]|Hne].
    - destruct gdf as [c rows]. simpl in *. subst c. unfold mret, py_ret. f_equal. f_equal.
      rewrite <- (map_id rows) at 1. apply map_ext. by intros [g a].
    - f_equal. f_equal. apply map_ext. intros r. case_decide; [congruence | done]. }
  rewrite Hfirst. simpl. unfold assign, assign_with. simpl. rewrite !map_map. simpl.
  erewrite with_area_sqkm_map; [|intros r; simpl; lookup_inserted; reflexivity].
  simpl.
  erewrite select_rows_map; [|intros r; simpl; lookup_inserted; simpl; reflexivity].
  simpl. unfold mret, py_ret. f_equal. f_equal.
  apply map_ext. intros r. by rewrite !geom_rename_column.
Qed.

Lemma kml_frame_no_crs clock (gdf : geodataframe) :
  gdf_crs gdf = None -> exists e, kml_frame clock gdf = Raise e.
Proof.
  intros Hcrs. unfold kml_frame, gdf_to_crs. rewrite Hcrs.
  case_decide; [discriminate|]. simpl. eauto.
Qed.

Lemma kml_rows_readable clock kml_path (gdf : geodataframe) source :
  read_file kml_path = Some gdf -> gdf_crs gdf = Some source ->
  kml_rows clock kml_path = map (kml_row source clock) (gdf_rows gdf).
Proof. intros H1 H2. unfold kml_rows. by rewrite H1, H2. Qed.

(** What one run of [process_optus_kml] does to the database *)
Lemma process_optus_kml_spec clock (db : database) kml_path :
  let new := kml_rows clock kml_path in
  (process_optus_kml clock db kml_path).2 = length new /\
  table_rows (process_optus_kml clock db kml_path).1 "mobile_coverage_areas"
    = table_rows db "mobile_coverage_areas" ++ new /\
  (forall name, name <> "mobile_coverage_areas" ->
     (process_optus_kml clock db kml_path).1 !! name = db !! name).
Proof.
  unfold process_optus_kml, kml_rows.
  destruct (read_file kml_path) as [gdf|]; simpl;
    [|by rewrite app_nil_r].
  destruct (gdf_crs gdf) as [source|] eqn:Hcrs.
  - rewrite (kml_frame_spec _ _ _ Hcrs). unfold to_postgis_append, table_rows. simpl.
    repeat split.
    + by rewrite lookup_insert_eq.
    + intros name Hne. by rewrite lookup_insert_ne.
  - destruct (kml_frame_no_crs clock gdf Hcrs) as [e ->]. simpl.
    by rewrite app_nil_r.
Qed.

(** C7: every row that [process_optus_kml] stores from a readable file
    has, in [area_sqkm], the area of its stored (WGS84) geometry
    reprojected from EPSG:4326 to EPSG:7856, divided by 1,000,000; there
    is one such row per feature of the file, and its geometry is the
    feature's geometry in EPSG:4326. *)
Theorem kml_area_from_projected_geometry (clock : datetime * datetime) (db : database)
    (kml_path : string) (gdf : geodataframe) (source : Z) :
  read_file kml_path = Some gdf ->
  gdf_crs gdf = Some source ->
  exists new,
    table_rows (process_optus_kml clock db kml_path).1 "mobile_coverage_areas"
      = table_rows db "mobile_coverage_areas" ++ new /\
    length new = length (gdf_rows gdf) /\
    (forall i feature, gdf_rows gdf !! i = Some feature ->
       exists r, new !! i = Some r /\ geom r = kml_geometry source (geom feature)) /\
    (forall r, r ∈ new ->
       attrs r !! "area_sqkm" =
         Some (VFloat (float_div (area (to_crs 4326 7856 (geom r)))
                                 (float_of_Z 1000000)))).
Proof.
  intros Hread Hcrs.
  destruct (process_optus_kml_spec clock db kml_path) as (_ & Htbl & _).
  rewrite (kml_rows_readable _ _ _ _ Hread Hcrs) in Htbl.
  eexists. split; [exact Htbl|]. split; [by rewrite length_map|]. split.
  - intros i feature Hi. exists (kml_row source clock feature).
    split; [|done]. by rewrite list_lookup_fmap, Hi.
  - intros r (feature & -> & _)%list_elem_of_fmap. unfold kml_row. simpl.
    by lookup_inserted.
Qed.

(** C8: a run of [process_optus_kml] leaves every table but
    [mobile_coverage_areas] as it was and puts the rows of the file after
    the rows that table already held, which stay as they were; the count
    returned is the number of rows added; for a readable file with a
    declared CRS there is one row per feature; and a second run on the same
    file adds the rows again, identical when the clock readings are. *)
Theorem kml_ingestion_appends (clock clock' : datetime * datetime) (db : database)
    (kml_path : string) :
  let db1 := (process_optus_kml clock db kml_path).1 in
  let db2 := (process_optus_kml clock' db1 kml_path).1 in
  let new := kml_rows clock kml_path in
  let new' := kml_rows clock' kml_path in
  (process_optus_kml clock db kml_path).2 = length new /\
  table_rows db1 "mobile_coverage_areas" = table_rows db "mobile_coverage_areas" ++ new /\
  (forall name, name <> "mobile_coverage_areas" -> db1 !! name = db !! name) /\
  (forall gdf source, read_file kml_path = Some gdf -> gdf_crs gdf = Some source ->
     length new = length (gdf_rows gdf)) /\
  table_rows db2 "mobile_coverage_areas"
    = table_rows db "mobile_coverage_areas" ++ new ++ new' /\
  length new' = length new /\
  (clock' = clock -> new' = new).
Proof.
  intros db1 db2 new new'.
  destruct (process_optus_kml_spec clock db kml_path) as (Hn & Htbl & Hother).
  destruct (process_optus_kml_spec clock' db1 kml_path) as (_ & Htbl' & _).
  split; [exact Hn|]. split; [exact Htbl|]. split; [exact Hother|].
  split; [|split; [|split]].
  - intros gdf source Hread Hcrs. subst new.
    by rewrite (kml_rows_readable _ _ _ _ Hread Hcrs), length_map.
  - subst db2. rewrite Htbl'. subst db1. rewrite Htbl. by rewrite app_assoc.
  - subst new new'. unfold kml_rows.
    destruct (read_file kml_path) as [gdf|]; [|done].
    destruct (gdf_crs gdf); [|done]. by rewrite !length_map.
  - by intros ->.
Qed.

(** * Further properties *)

(** ** Band flags and band lists *)

Lemma upper_char_is_Y (c : Ascii.ascii) :
  PyStr.upper_char c = "Y"%char <-> c = "Y"%char \/ c = "y"%char.
Proof.
  destruct c as [[] [] [] [] [] [] [] []]; vm_compute;
    split; (discriminate || tauto || (intros [H|H]; discriminate) || auto).
Qed.

Lemma upper_is_Y (s : string) : PyStr.upper s = "Y" <-> s = "Y" \/ s = "y".
Proof.
  destruct s as [|c [|c' s]].
  - split; [discriminate | intros [H|H]; discriminate].
  - change (PyStr.upper (String c "")) with (String (PyStr.upper_char c) "").
    split.
    + intros [= H]. apply upper_char_is_Y in H as [-> | ->]; auto.
    + intros [[= ->] | [= ->]]; reflexivity.
  - split; [discriminate | intros [H|H]; discriminate].
Qed.

Lemma pretty_N_go_ne_letter (x : N) (s : string) (c : Ascii.ascii) (t : string) :
  (forall n, pretty_N_char n <> c) ->
  s <> String c t -> pretty_N_go x s <> String c t.
Proof.
  intros Hc. revert s. induction (N.lt_wf_0 x) as [x _ IH]; intros s Hs.
  assert (x = 0 \/ 0 < x)%N as [->|Hx] by lia.
  - by rewrite pretty_N_go_0.
  - rewrite pretty_N_go_step by done. apply IH.
    + by apply N.div_lt.
    + intros [= H _]. by apply (Hc _ H).
Qed.

Lemma pretty_Z_ne_letter (z : Z) (c : Ascii.ascii) :
  (forall n, pretty_N_char n <> c) -> c <> "-"%char -> pretty z <> String c "".
Proof.
  intros Hc Hdash. destruct z as [|p|p].
  - change (pretty 0%Z) with "0". intros [= H]. by apply (Hc 0%N).
  - change (pretty (Z.pos p)) with (pretty_N_go (N.pos p) "").
    by apply pretty_N_go_ne_letter.
  - change (pretty (Z.neg p)) with ("-" +:+ pretty_N_go (N.pos p) "").
    rewrite app_cons. intros [= H _]. by apply Hdash.
Qed.

(** X1: [str(cell).upper() == 'Y'] holds for a text cell exactly when the
    text is "Y" or "y", and never for an integer cell; a missing column is
    not flagged. *)
Theorem band_flag_only_text_y (row : csv_row) (col : string) :
  (forall s, row !! col = Some (CStr s) ->
     (flag_set row col = true <-> s = "Y" \/ s = "y")) /\
  (forall z, row !! col = Some (CInt z) -> flag_set row col = false) /\
  (row !! col = None -> flag_set row col = false).
Proof.
  unfold flag_set. split; [|split].
  - intros s ->. simpl. rewrite bool_decide_eq_true. apply upper_is_Y.
  - intros z ->. simpl. apply bool_decide_eq_false.
    intros [H|H]%upper_is_Y; revert H.
    + apply pretty_Z_ne_letter; [|discriminate].
      intros n. unfold pretty_N_char. by repeat case_match.
    + apply pretty_Z_ne_letter; [|discriminate].
      intros n. unfold pretty_N_char. by repeat case_match.
  - by intros ->.
Qed.

Lemma parse_frequency_bands_filter (row : csv_row) (carrier : string) :
  parse_frequency_bands row carrier
  = filter (fun band => flag_set row band = true) (carrier_columns carrier).
Proof. unfold parse_frequency_bands, carrier_columns. by repeat case_decide. Qed.

Lemma carrier_columns_NoDup (carrier : string) : NoDup (carrier_columns carrier).
Proof.
  unfold carrier_columns.
  repeat case_decide; try apply NoDup_nil_2;
    apply (bool_decide_unpack _); by vm_compute.
Qed.

(** X2: the bands [parse_frequency_bands] returns are exactly the columns of
    the carrier's list that are flagged in the row; they come in the order
    of that list and none is repeated. *)
Theorem parse_frequency_bands_selects_flagged (row : csv_row) (carrier : string) :
  (forall band, band ∈ parse_frequency_bands row carrier <->
     band ∈ carrier_columns carrier /\ flag_set row band = true) /\
  parse_frequency_bands row carrier `sublist_of` carrier_columns carrier /\
  NoDup (parse_frequency_bands row carrier).
Proof.
  rewrite parse_frequency_bands_filter. split; [|split].
  - intros band. rewrite list_elem_of_filter. tauto.
  - apply sublist_filter.
  - apply NoDup_filter, carrier_columns_NoDup.
Qed.

(** ** Technology classes *)

Lemma py_any_app {A} (p : A -> bool) (xs ys : list A) :
  py_any p (xs ++ ys) = py_any p xs || py_any p ys.
Proof.
  induction xs as [|x xs IH]; simpl; [done|]. by destruct (p x).
Qed.

(** X3: the technology class of two band lists put together is the higher
    of their two classes (5G over 4G/LTE over 3G over 2G over Unknown): more
    bands never lower the class. *)
Theorem determine_technology_app (bands1 bands2 : list string) :
  technology_rank (determine_technology (bands1 ++ bands2))
    = technology_rank (determine_technology bands1)
        `max` technology_rank (determine_technology bands2) /\
  (determine_technology (bands1 ++ bands2) = determine_technology bands1 \/
   determine_technology (bands1 ++ bands2) = determine_technology bands2).
Proof.
  unfold determine_technology. rewrite !py_any_app.
  repeat match goal with
         | |- context [py_any ?p ?l] => destruct (py_any p l)
         end; split; (reflexivity || auto).
Qed.

Lemma py_any_filter_false {A} (p : A -> bool) (P : A -> Prop)
    `{!forall x, Decision (P x)} (xs : list A) :
  py_any p xs = false -> py_any p (filter P xs) = false.
Proof.
  intros Hfalse. apply not_true_is_false. intros (x & Hx & Hp)%py_any_spec.
  apply list_elem_of_filter in Hx as [_ Hx].
  assert (py_any p xs = true) by (apply py_any_spec; eauto). congruence.
Qed.

(** X4: whatever the row holds, it is classed 2G only for carrier Telstra
    and 3G only for carrier Optus or Telstra (names compared in lower
    case): the band columns of the other carriers carry no such marker. *)
Theorem legacy_classes_only_for_some_carriers (row : csv_row) (carrier : string) :
  (determine_technology (parse_frequency_bands row carrier) = "2G" ->
     PyStr.lower carrier = "telstra") /\
  (determine_technology (parse_frequency_bands row carrier) = "3G" ->
     PyStr.lower carrier = "optus" \/ PyStr.lower carrier = "telstra").
Proof.
  rewrite parse_frequency_bands_filter. unfold carrier_columns, determine_technology.
  split; intros Htech; repeat case_decide; auto; exfalso; revert Htech;
    rewrite ?(py_any_filter_false (fun band => PyStr.contains "GSM" band))
      by (by vm_compute);
    rewrite ?(py_any_filter_false
                (fun band => PyStr.contains "UMTS" band || PyStr.contains "WCDMA" band))
      by (by vm_compute);
    repeat match goal with
           | |- context [py_any ?p ?l] => destruct (py_any p l)
           end; discriminate.
Qed.

(** ** Records of the CSV adapter *)

Lemma str_app_assoc (s1 s2 s3 : string) : (s1 +:+ s2) +:+ s3 = s1 +:+ s2 +:+ s3.
Proof. induction s1 as [|a s1 IH]; [done|]. rewrite !app_cons. by rewrite IH. Qed.

Lemma str_app_nil_r (s : string) : s +:+ "" = s.
Proof. induction s as [|a s IH]; [done|]. rewrite app_cons. by rewrite IH. Qed.

(** X5: an emitted record is marked ['Co-funded'] exactly when the row's
    [Co_funded] column is flagged, and has no ['site_type'] key otherwise;
    its name is "<carrier> Site <id>", followed by " (<program>)" only when
    it is co-funded and the row has a [Co_contribution_program] column. *)
Theorem co_funding_follows_flag (clk : datetime * datetime) (row : csv_row)
    (carrier_name : string) (record : site_record) :
  process_row clk row carrier_name = Ret (Some record) ->
  exists rfnsa,
    row !! "RFNSA ID" = Some rfnsa /\
    (flag_set row "Co_funded" = true ->
       site_type record = Some (Some "Co-funded") /\
       site_name record =
         carrier_name +:+ " Site " +:+ py_str rfnsa +:+
         from_option (fun program => " (" +:+ py_str program +:+ ")") ""
           (row !! "Co_contribution_program")) /\
    (flag_set row "Co_funded" = false ->
       site_type record = None /\
       site_name record = carrier_name +:+ " Site " +:+ py_str rfnsa).
Proof.
  unfold process_row, row_get.
  destruct (row !! "Latitude") as [c_lat|]; [|discriminate].
  simpl. destruct (py_float c_lat) as [lat|]; [|discriminate].
  destruct (row !! "Longitude") as [c_lon|]; [|discriminate].
  simpl. destruct (py_float c_lon) as [lon|]; [|discriminate].
  simpl. destruct (in_australia lat lon); simpl;
    [|destruct (row !! "RFNSA ID"); discriminate].
  destruct (row !! "RFNSA ID") as [rfnsa|]; [|discriminate].
  simpl. destruct (flag_set row "Co_funded"); intros [= <-]; exists rfnsa; simpl.
  - split; [done|]. split; [|discriminate]. intros _. split; [done|].
    destruct (row !! "Co_contribution_program"); simpl.
    + by rewrite !str_app_assoc.
    + by rewrite str_app_nil_r.
  - split; [done|]. split; [discriminate|]. done.
Qed.

Lemma rows_loop_length clock carrier_name idx rows :
  length (rows_loop clock carrier_name idx rows []) <= length rows.
Proof.
  revert idx. induction rows as [|row rows IH]; intros idx; [done|].
  rewrite rows_loop_cons, length_app. specialize (IH (S idx)).
  destruct (emitted clock carrier_name idx row); simpl; lia.
Qed.

(** X6: [process_csv_file] returns no record for a file that cannot be
    read, at most one record per row of a readable file, and only records
    of the carrier it was called for, all with status "Active". *)
Theorem process_csv_file_output_shape (clock : nat -> datetime * datetime)
    (file_path carrier_name : string) :
  (read_csv file_path = None -> process_csv_file clock file_path carrier_name = []) /\
  (forall df, read_csv file_path = Some df ->
     length (process_csv_file clock file_path carrier_name) <= length df) /\
  (forall record, record ∈ process_csv_file clock file_path carrier_name ->
     carrier record = carrier_name /\ operational_status record = "Active").
Proof.
  split; [|split].
  - intros H. unfold process_csv_file. by rewrite H.
  - intros df H. unfold process_csv_file. rewrite H. apply rows_loop_length.
  - intros record (df & i & row & _ & _ & H)%process_csv_file_elem.
    split.
    + by apply process_row_emits in H as (_ & _ & _ & _ & _ & _ & _ & _ & _ & _ & H & _).
    + revert H. unfold process_row, row_get.
      destruct (row !! "Latitude") as [c_lat|]; [|discriminate].
      simpl. destruct (py_float c_lat) as [lat|]; [|discriminate].
      destruct (row !! "Longitude") as [c_lon|]; [|discriminate].
      simpl. destruct (py_float c_lon) as [lon|]; [|discriminate].
      simpl. destruct (in_australia lat lon); simpl;
        [|destruct (row !! "RFNSA ID"); discriminate].
      destruct (row !! "RFNSA ID") as [rfnsa|]; [|discriminate].
      simpl. by destruct (flag_set row "Co_funded"); intros [= <-].
Qed.

(** ** Coordinates that are not numbers *)

Lemma in_australia_nan (x : pyfloat) :
  in_australia S754_nan x = false /\ in_australia x S754_nan = false.
Proof.
  unfold in_australia. split; [done|].
  destruct (float_le (float_of_Z (-50)) x), (float_le x (float_of_Z (-10))); done.
Qed.

(** X23: a row whose latitude or longitude is NaN (an empty CSV field) or
    infinite is never emitted; when it has an id it is skipped by the
    coordinate check, not by an exception. *)
Theorem not_a_number_coordinates_skipped (clk : datetime * datetime) (row : csv_row)
    (carrier_name : string) (c_lat c_lon : cell) (lat lon : pyfloat) :
  row !! "Latitude" = Some c_lat -> py_float c_lat = Ret lat ->
  row !! "Longitude" = Some c_lon -> py_float c_lon = Ret lon ->
  lat = S754_nan \/ lon = S754_nan \/
    (exists sign, lat = S754_infinity sign) \/ (exists sign, lon = S754_infinity sign) ->
  in_australia lat lon = false /\
  (forall record, process_row clk row carrier_name <> Ret (Some record)) /\
  (is_Some (row !! "RFNSA ID") -> process_row clk row carrier_name = Ret None).
Proof.
  intros Hlat Hplat Hlon Hplon Hbad.
  assert (Hb : in_australia lat lon = false).
  { destruct Hbad as [->|[->|[[sign ->]|[sign ->]]]].
    - apply in_australia_nan.
    - apply in_australia_nan.
    - unfold in_australia. by destruct sign.
    - unfold in_australia.
      destruct (float_le (float_of_Z (-50)) lat), (float_le lat (float_of_Z (-10)));
        by destruct sign.
  }
  unfold process_row, row_get. rewrite Hlat. simpl. rewrite Hplat, Hlon. simpl.
  rewrite Hplon. simpl. rewrite Hb. simpl.
  split; [done|]. split.
  - intros record. by destruct (row !! "RFNSA ID").
  - by intros [rfnsa ->].
Qed.

(** ** The [mobile_sites] table under [insert_mobile_sites] *)

(** X7: the stored technology is always the class of the stored bands: the
    adapter derives every record's technology from its bands, and a table
    with that property keeps it when a file is ingested. *)
Theorem stored_technology_follows_bands (tbl : site_table)
    (clock : nat -> datetime * datetime) (file_path carrier_name : string) :
  (forall key row, tbl !! key = Some row ->
     row_technology row = determine_technology (row_frequency_bands row)) ->
  (forall record, record ∈ process_csv_file clock file_path carrier_name ->
     technology record = determine_technology (frequency_bands record)) /\
  (forall key row,
     ingest_mobile_file tbl (process_csv_file clock file_path carrier_name) !! key
       = Some row ->
     row_technology row = determine_technology (row_frequency_bands row)).
Proof.
  intros Htbl.
  assert (Hrec : forall record,
            record ∈ process_csv_file clock file_path carrier_name ->
            technology record = determine_technology (frequency_bands record)).
  { intros record (df & i & row & _ & _ & H)%process_csv_file_elem.
    by apply process_row_emits in H
      as (_ & _ & _ & _ & _ & _ & _ & _ & _ & _ & _ & _ & H & _). }
  split; [exact Hrec|].
  unfold ingest_mobile_file. rewrite insert_mobile_sites_spec. simpl.
  apply (foldl_upsert_invariant
           (fun row => row_technology row
                       = determine_technology (row_frequency_bands row)));
    [|exact Htbl].
  intros record stored Hin. destruct stored; simpl; by apply Hrec.
Qed.

Lemma foldl_upsert_at_others k (stored : option site_row) records :
  (forall record, record ∈ records -> record_key record <> k) ->
  foldl (upsert_at k) stored records = stored.
Proof.
  revert stored. induction records as [|r rs IH]; intros stored Hne; simpl; [done|].
  rewrite upsert_at_other by (apply Hne; by left).
  apply IH. intros record Hin. apply Hne. by right.
Qed.

Lemma foldl_upsert_is_Some (tbl : site_table) records k :
  is_Some (foldl upsert tbl records !! k) <->
  is_Some (tbl !! k) \/ k ∈ map record_key records.
Proof.
  revert tbl. induction records as [|r rs IH]; intros tbl; simpl.
  - rewrite elem_of_nil. tauto.
  - rewrite IH, upsert_lookup, elem_of_cons.
    destruct (decide (record_key r = k)) as [Hk|Hk].
    + rewrite (upsert_at_key _ _ _ Hk). split; [auto|]. intros _. left. eauto.
    + rewrite (upsert_at_other _ _ _ Hk). split; [tauto|].
      intros [H|[H|H]]; auto. by destruct Hk.
Qed.





(** X10: no batch changes the [data_source] of a site that is already
    stored, and no batch removes a stored site. *)
Theorem data_source_never_updated (tbl : site_table) (records : list site_record)
    (k : string * string) (existing : site_row) :
  tbl !! k = Some existing ->
  exists row,
    (insert_mobile_sites tbl records).1.1 !! k = Some row /\
    row_data_source row = row_data_source existing.
Proof.
  intros Hk. rewrite insert_mobile_sites_spec. simpl.
  rewrite foldl_upsert_lookup, Hk. apply foldl_upsert_at_data_source.
Qed.

(** X11: a record that carries ['site_type': None] is passed to the
    statement as NULL: on a stored site the stored site type is kept, and
    for a new site NULL is stored. *)
Theorem null_site_type_keeps_stored (tbl : site_table) (record : site_record) :
  site_type record = Some None ->
  exists row,
    (insert_mobile_sites tbl [record]).1.1 !! record_key record = Some row /\
    row_site_type row = tbl !! record_key record ≫= row_site_type.
Proof.
  intros Hst. rewrite insert_mobile_sites_spec. simpl.
  rewrite upsert_lookup, upsert_at_key by done.
  eexists. split; [done|]. rewrite merge_row_site_type.
  unfold sql_site_type. by rewrite Hst.
Qed.


(** ** The coverage tables *)





Lemma nbn_table_name_normalized (coverage_type : string) :
  nbn_table_name coverage_type = "nbn_" +:+ normalized_label coverage_type +:+ "_coverage".
Proof. done. Qed.



Lemma process_nbn_shapefile_unreadable clock (db : database) shapefile_path coverage_type :
  read_file shapefile_path = None ->
  process_nbn_shapefile clock db shapefile_path coverage_type = (db, 0).
Proof. intros H. unfold process_nbn_shapefile. by rewrite H. Qed.

(** X14: a run on a readable file makes everything an earlier run wrote to
    the same table irrelevant: the later run alone decides the database and
    the count. In particular running the same ingestion twice is the same
    as running it once. *)
Theorem nbn_later_run_overwrites (clock1 clock2 : datetime * datetime) (db : database)
    (path1 path2 label1 label2 : string) (gdf2 : geodataframe) :
  read_file path2 = Some gdf2 ->
  nbn_table_name label1 = nbn_table_name label2 ->
  process_nbn_shapefile clock2
    (process_nbn_shapefile clock1 db path1 label1).1 path2 label2
  = process_nbn_shapefile clock2 db path2 label2.
Proof.
  intros Hread2 Hname.
  rewrite !(process_nbn_shapefile_spec clock2 _ _ _ _ Hread2).
  destruct (read_file path1) as [gdf1|] eqn:Hread1.
  - rewrite (process_nbn_shapefile_spec clock1 _ _ _ _ Hread1). simpl.
    by rewrite Hname, insert_insert_eq.
  - by rewrite (process_nbn_shapefile_unreadable _ _ _ _ Hread1).
Qed.


Lemma process_optus_kml_exact clock (db : database) kml_path :
  process_optus_kml clock db kml_path =
  match read_file kml_path with
  | Some gdf =>
      match gdf_crs gdf with
      | Some source =>
          (<["mobile_coverage_areas" :=
               table_rows db "mobile_coverage_areas"
                 ++ map (kml_row source clock) (gdf_rows gdf)]> db,
           length (gdf_rows gdf))
      | None => (db, 0)
      end
  | None => (db, 0)
  end.
Proof.
  unfold process_optus_kml. destruct (read_file kml_path) as [gdf|]; [|done].
  destruct (gdf_crs gdf) as [source|] eqn:Hcrs.
  - rewrite (kml_frame_spec _ _ _ Hcrs). unfold to_postgis_append, table_rows. simpl.
    by rewrite length_map.
  - by destruct (kml_frame_no_crs clock gdf Hcrs) as [e ->].
Qed.

Lemma nbn_table_name_not_mobile (label : string) :
  nbn_table_name label <> "mobile_coverage_areas".
Proof. rewrite nbn_table_name_normalized, app_cons. discriminate. Qed.

(** X16: the two coverage adapters never write to each other's tables: no
    label names the table [mobile_coverage_areas], an NBN run leaves that
    table as it was, a KML run leaves the rows of every NBN category as they
    were, and the two runs give the same database in either order. *)
Theorem nbn_and_kml_do_not_interfere (clock_nbn clock_kml : datetime * datetime)
    (db : database) (shapefile_path label kml_path : string) :
  (forall any_label, nbn_table_name any_label <> "mobile_coverage_areas") /\
  table_rows (process_nbn_shapefile clock_nbn db shapefile_path label).1
    "mobile_coverage_areas" = table_rows db "mobile_coverage_areas" /\
  (forall category,
     stored_rows (process_optus_kml clock_kml db kml_path).1 category
       = stored_rows db category) /\
  (process_optus_kml clock_kml
     (process_nbn_shapefile clock_nbn db shapefile_path label).1 kml_path).1
  = (process_nbn_shapefile clock_nbn
       (process_optus_kml clock_kml db kml_path).1 shapefile_path label).1.
Proof.
  pose proof (nbn_table_name_not_mobile label) as Hne.
  split; [exact nbn_table_name_not_mobile|]. split; [|split].
  - unfold table_rows. destruct (read_file shapefile_path) as [gdf|] eqn:Hread.
    + rewrite (process_nbn_shapefile_spec _ _ _ _ _ Hread). simpl.
      by rewrite lookup_insert_ne.
    + by rewrite (process_nbn_shapefile_unreadable _ _ _ _ Hread).
  - intros category. unfold stored_rows, table_rows.
    destruct (process_optus_kml_spec clock_kml db kml_path) as (_ & _ & Hother).
    by rewrite Hother by apply nbn_table_name_not_mobile.
  - rewrite !process_optus_kml_exact.
    destruct (read_file shapefile_path) as [gdf|] eqn:Hread.
    + rewrite !(process_nbn_shapefile_spec _ _ _ _ _ Hread). simpl.
      destruct (read_file kml_path) as [kml|]; [|done].
      destruct (gdf_crs kml); [|done]. simpl.
      unfold table_rows. rewrite lookup_insert_ne by done.
      by apply insert_insert_ne.
    + rewrite !(process_nbn_shapefile_unreadable _ _ _ _ Hread). done.
Qed.

(** X17: every row the KML adapter stores has, besides its geometry,
    exactly the seven columns carrier, technology, coverage_type,
    signal_strength, area_sqkm, last_updated and data_source, with the
    fixed values 'Optus', '4G', '4G External Antenna' and 'Good'; no other
    column of the file (the placemark's name and description included) is
    stored. *)
Theorem kml_rows_columns (clock : datetime * datetime) (db : database)
    (kml_path : string) :
  table_rows (process_optus_kml clock db kml_path).1 "mobile_coverage_areas"
    = table_rows db "mobile_coverage_areas" ++ kml_rows clock kml_path /\
  (forall r, r ∈ kml_rows clock kml_path ->
     (forall col, is_Some (attrs r !! col) <-> col ∈ columns_to_keep) /\
     attrs r !! "carrier" = Some (VStr "Optus") /\
     attrs r !! "technology" = Some (VStr "4G") /\
     attrs r !! "coverage_type" = Some (VStr "4G External Antenna") /\
     attrs r !! "signal_strength" = Some (VStr "Good") /\
     attrs r !! "data_source" = Some (VStr ("Optus_KML_" +:+ pretty (dt_year clock.1))) /\
     attrs r !! "last_updated" = Some (VTime clock.2) /\
     attrs r !! "Name" = None /\ attrs r !! "name" = None /\
     attrs r !! "Description" = None /\ attrs r !! "description" = None).
Proof.
  split; [apply process_optus_kml_spec|].
  intros r. unfold kml_rows.
  destruct (read_file kml_path) as [gdf|]; [|intros H; inversion H].
  destruct (gdf_crs gdf) as [source|]; [|intros H; inversion H].
  intros (feature & -> & _)%list_elem_of_fmap. unfold kml_row. simpl.
  split; [|by lookup_inserted].
  intros col. unfold columns_to_keep.
  rewrite <- !(elem_of_dom (D := gset string)), !dom_insert_L, dom_empty_L.
  rewrite !elem_of_union, !elem_of_singleton, elem_of_empty.
  rewrite !elem_of_cons, elem_of_nil. tauto.
Qed.


(** ** [main] *)

Lemma process_csv_file_carrier clock file_path carrier_name record :
  record ∈ process_csv_file clock file_path carrier_name -> carrier record = carrier_name.
Proof.
  intros (df & i & row & _ & _ & H)%process_csv_file_elem.
  by apply process_row_emits in H as (_ & _ & _ & _ & _ & _ & _ & _ & _ & _ & H & _).
Qed.

Lemma mobile_files_loop_spec (env : run_env) (files : list (string * string))
    (tbl : site_table) (total : nat) :
  mobile_files_loop env files tbl total =
  (foldl upsert tbl (main_records env files), total + length (main_records env files)).
Proof.
  revert tbl total. induction files as [|[file_path carrier_name] files IH];
    intros tbl total; simpl.
  - by rewrite Nat.add_0_r.
  - destruct (path_exists env file_path); simpl; [|apply IH].
    rewrite insert_mobile_sites_spec, IH, foldl_app, length_app.
    f_equal. lia.
Qed.

Lemma main_records_carrier (env : run_env) (files : list (string * string))
    (record : site_record) :
  record ∈ main_records env files -> carrier record ∈ files.*2.
Proof.
  unfold main_records. intros (file & Hfile & Hin)%list_elem_of_In%in_flat_map.
  apply list_elem_of_In in Hfile, Hin.
  destruct (path_exists env file.1); [|inversion Hin].
  apply process_csv_file_carrier in Hin as ->. by apply list_elem_of_fmap_2.
Qed.

Lemma nbn_files_loop_lookup (env : run_env) (files : list (string * string))
    (db : database) (total : nat) (name : string) :
  (nbn_files_loop env files db total).1 !! name
  = foldl (nbn_file_effect env name) (db !! name) files.
Proof.
  revert db total. induction files as [|[file_path label] files IH];
    intros db total; simpl; [done|].
  unfold nbn_file_effect at 2. simpl.
  destruct (path_exists env file_path); [|apply IH].
  destruct (read_file file_path) as [gdf|] eqn:Hread.
  - rewrite (process_nbn_shapefile_spec _ _ _ _ _ Hread), IH.
    f_equal. case_decide as Hname.
    + subst name. by rewrite lookup_insert_eq.
    + by rewrite lookup_insert_ne.
  - rewrite (process_nbn_shapefile_unreadable _ _ _ _ Hread). apply IH.
Qed.

Lemma nbn_files_loop_count (env : run_env) (files : list (string * string))
    (db : database) (total : nat) :
  (nbn_files_loop env files db total).2
  = total + sum_list (map (nbn_file_count env) files).
Proof.
  revert db total. induction files as [|[file_path label] files IH];
    intros db total; simpl; [lia|].
  unfold nbn_file_count at 1. simpl.
  destruct (path_exists env file_path); [|apply IH].
  destruct (read_file file_path) as [gdf|] eqn:Hread.
  - rewrite (process_nbn_shapefile_spec _ _ _ _ _ Hread), IH. lia.
  - rewrite (process_nbn_shapefile_unreadable _ _ _ _ Hread), IH. lia.
Qed.



Lemma foldl_nbn_file_effect_other (env : run_env) (name : string)
    (rows : option (list geo_row)) (files : list (string * string)) :
  name ∉ map nbn_table_name files.*2 ->
  foldl (nbn_file_effect env name) rows files = rows.
Proof.
  revert rows. induction files as [|file files IH]; intros rows Hname; simpl; [done|].
  assert (nbn_file_effect env name rows file = rows) as ->.
  { unfold nbn_file_effect. destruct (path_exists env file.1); [|done].
    destruct (read_file file.1); [|done]. case_decide as H; [|done].
    destruct Hname. simpl. rewrite H. by left. }
  apply IH. intros H. apply Hname. simpl. by right.
Qed.

(** The stores and the summary of a run that passes the connection test *)
Lemma main_connected (env : run_env) (tbl : site_table) (db : database) :
  connection_ok env = true ->
  main env tbl db =
  (0,
   (foldl upsert tbl (main_records env mobile_files),
    (if path_exists env kml_file
     then process_optus_kml (frame_clock env kml_file)
            (nbn_files_loop env nbn_files db 0).1 kml_file
     else ((nbn_files_loop env nbn_files db 0).1, 0)).1),
   Some (length (main_records env mobile_files),
         sum_list (map (nbn_file_count env) nbn_files),
         length (main_kml_rows env))).
Proof.
  intros Hok. unfold main. rewrite Hok. simpl negb. cbv iota.
  rewrite mobile_files_loop_spec.
  pose proof (nbn_files_loop_count env nbn_files db 0) as Hcount.
  destruct (nbn_files_loop env nbn_files db 0) as [db' total_nbn]. simpl in Hcount.
  subst total_nbn. unfold main_kml_rows.
  destruct (path_exists env kml_file); simpl; [|done].
  destruct (process_optus_kml_spec (frame_clock env kml_file) db' kml_file)
    as (Hn & _ & _).
  destruct (process_optus_kml (frame_clock env kml_file) db' kml_file) as [db'' n].
  simpl in *. by subst n.
Qed.

Lemma main_sites (env : run_env) (tbl : site_table) (db : database) :
  (main env tbl db).1.2.1
  = if connection_ok env then foldl upsert tbl (main_records env mobile_files) else tbl.
Proof.
  destruct (connection_ok env) eqn:Hok; [by rewrite main_connected|].
  unfold main. by rewrite Hok.
Qed.

Lemma main_coverage_lookup (env : run_env) (tbl : site_table) (db : database)
    (name : string) :
  connection_ok env = true ->
  name <> "mobile_coverage_areas" ->
  (main env tbl db).1.2.2 !! name
  = foldl (nbn_file_effect env name) (db !! name) nbn_files.
Proof.
  intros Hok Hname. rewrite main_connected by done. cbn [fst snd].
  rewrite <- (nbn_files_loop_lookup env nbn_files db 0 name).
  destruct (path_exists env kml_file); [|done].
  by destruct (process_optus_kml_spec (frame_clock env kml_file)
                 (nbn_files_loop env nbn_files db 0).1 kml_file) as (_ & _ & ->).
Qed.

Lemma main_coverage_areas (env : run_env) (tbl : site_table) (db : database) :
  connection_ok env = true ->
  table_rows (main env tbl db).1.2.2 "mobile_coverage_areas"
  = table_rows db "mobile_coverage_areas" ++ main_kml_rows env.
Proof.
  intros Hok. rewrite main_connected by done. cbn [fst snd].
  assert (Hn : table_rows (nbn_files_loop env nbn_files db 0).1 "mobile_coverage_areas"
               = table_rows db "mobile_coverage_areas").
  { unfold table_rows. rewrite nbn_files_loop_lookup.
    rewrite foldl_nbn_file_effect_other; [done|].
    vm_compute. intros H. repeat (inversion H as [|? ? ? H']; clear H; rename H' into H). }
  unfold main_kml_rows. destruct (path_exists env kml_file).
  - destruct (process_optus_kml_spec (frame_clock env kml_file)
                (nbn_files_loop env nbn_files db 0).1 kml_file) as (_ & -> & _).
    by rewrite Hn.
  - cbn [fst]. by rewrite Hn, app_nil_r.
Qed.

Lemma main_records_key (env : run_env) (record : site_record) :
  record ∈ main_records env mobile_files ->
  (record_key record).2 ∈ ["Optus"; "Telstra"; "TPG"].
Proof. intros H. by apply main_records_carrier in H. Qed.

(** X19: [main] only ever writes sites of the carriers Optus, Telstra and
    TPG: rows of other carriers are left as they were and every row that
    appears belongs to one of the three; no stored site disappears, and
    the [data_source] of a stored site stays what it was. *)
Theorem main_site_table_scope (env : run_env) (tbl : site_table) (db : database) :
  let tbl' := (main env tbl db).1.2.1 in
  (forall k, k.2 ∉ ["Optus"; "Telstra"; "TPG"] -> tbl' !! k = tbl !! k) /\
  (forall k, is_Some (tbl' !! k) ->
     is_Some (tbl !! k) \/ k.2 ∈ ["Optus"; "Telstra"; "TPG"]) /\
  (forall k existing, tbl !! k = Some existing ->
     exists row, tbl' !! k = Some row /\
       row_data_source row = row_data_source existing).
Proof.
  cbv zeta. rewrite main_sites.
  destruct (connection_ok env); [|by repeat split; eauto]. split; [|split].
  - intros k Hk. rewrite foldl_upsert_lookup. apply foldl_upsert_at_others.
    intros record Hin <-. by apply Hk, (main_records_key env).
  - intros k [H|H]%foldl_upsert_is_Some; [by left|right].
    apply list_elem_of_fmap in H as (record & -> & Hin).
    by apply (main_records_key env).
  - intros k existing Hk. rewrite foldl_upsert_lookup, Hk.
    apply foldl_upsert_at_data_source.
Qed.

(** X20: of the coverage database a connected [main] touches three tables
    only. [mobile_coverage_areas] gains the rows of the KML file, after the
    rows it had; the table of each NBN category holds exactly the rows
    derived from its shapefile when that file exists and can be read; every
    other table is left as it was. *)
Theorem main_coverage_scope (env : run_env) (tbl : site_table) (db : database) :
  connection_ok env = true ->
  let db' := (main env tbl db).1.2.2 in
  (forall name,
     name ∉ ["nbn_fixed_line_coverage"; "nbn_wireless_coverage";
              "mobile_coverage_areas"] ->
     db' !! name = db !! name) /\
  table_rows db' "mobile_coverage_areas"
    = table_rows db "mobile_coverage_areas" ++ main_kml_rows env /\
  (forall file label gdf,
     (file, label) ∈ nbn_files ->
     path_exists env file = true -> read_file file = Some gdf ->
     stored_rows db' label
       = map (nbn_row (default 7856%Z (gdf_crs gdf)) (frame_clock env file) label)
             (gdf_rows gdf)) /\
  (forall file label,
     (file, label) ∈ nbn_files ->
     path_exists env file = false \/ read_file file = None ->
     stored_rows db' label = stored_rows db label).
Proof.
  intros Hok db'. subst db'. split; [|split; [by apply main_coverage_areas|split]].
  - intros name Hname. rewrite main_coverage_lookup; [|done|].
    + apply foldl_nbn_file_effect_other. intros H. apply Hname.
      vm_compute in H. apply elem_of_cons in H as [->|H]; [by left|].
      apply list_elem_of_singleton in H as ->. right. by left.
    + intros ->. apply Hname. right. right. by left.
  - intros file label gdf Hin Hex Hread. unfold stored_rows, table_rows.
    rewrite main_coverage_lookup by (done || apply nbn_table_name_not_mobile).
    apply elem_of_cons in Hin as [[= -> ->]|Hin];
      [|apply list_elem_of_singleton in Hin as [= -> ->]];
      simpl; unfold nbn_file_effect; simpl; rewrite ?Hex, ?Hread;
      repeat match goal with
             | |- context [path_exists env ?p] => destruct (path_exists env p)
             | |- context [read_file ?p] => destruct (read_file p)
             end;
      repeat (case_decide; try discriminate); simpl; done.
  - intros file label Hin Hno. unfold stored_rows, table_rows.
    rewrite main_coverage_lookup by (done || apply nbn_table_name_not_mobile).
    apply elem_of_cons in Hin as [[= -> ->]|Hin];
      [|apply list_elem_of_singleton in Hin as [= -> ->]];
      simpl; unfold nbn_file_effect; simpl; destruct Hno as [Hno|Hno];
      rewrite ?Hno;
      repeat match goal with
             | |- context [path_exists env ?p] => destruct (path_exists env p)
             | |- context [read_file ?p] => destruct (read_file p)
             end;
      rewrite ?Hno;
      repeat (case_decide; try discriminate); simpl; done.
Qed.




End Ingestion.

(** ** The properties on the example environment *)

Lemma determine_technology_precedence_witness :
  has_marker "LTE" ["LTE700"; "NR3500"] /\
  has_marker "NR" ["LTE700"; "NR3500"] /\
  determine_technology ["LTE700"; "NR3500"] = "5G".
Proof.
  assert (Hl : has_marker "LTE" ["LTE700"; "NR3500"]).
  { exists "LTE700". split; [left | exists "", "700"; reflexivity]. }
  assert (Hn : has_marker "NR" ["LTE700"; "NR3500"]).
  { exists "NR3500". split; [right; left | exists "", "3500"; reflexivity]. }
  split; [exact Hl|]. split; [exact Hn|].
  destruct (determine_technology_precedence ["LTE700"; "NR3500"])
    as (_ & _ & _ & _ & _ & _ & _ & _ & H).
  exact (H Hl Hn).
Defined.

Lemma out_of_bounds_rows_rejected_witness :
  Demo.site_plain ∈ process_csv_file Demo.str_of_float Demo.float_of_str Demo.read_csv
                      Demo.clock "sites.csv" "Optus" /\
  in_australia (latitude Demo.site_plain) (longitude Demo.site_plain) = true /\
  Demo.row_north !! "Latitude" = Some (CFloat f_40_0) /\
  Demo.row_north !! "Longitude" = Some (CFloat f_151_2) /\
  (forall record,
     process_row Demo.str_of_float Demo.float_of_str (Demo.clock 1) Demo.row_north "Optus"
     <> Ret (Some record)).
Proof.
  assert (Hin : Demo.site_plain ∈ process_csv_file Demo.str_of_float Demo.float_of_str
                  Demo.read_csv Demo.clock "sites.csv" "Optus").
  { vm_compute. left. }
  assert (Hlat : Demo.row_north !! "Latitude" = Some (CFloat f_40_0)) by reflexivity.
  assert (Hlon : Demo.row_north !! "Longitude" = Some (CFloat f_151_2)) by reflexivity.
  destruct (out_of_bounds_rows_rejected Demo.str_of_float Demo.float_of_str Demo.read_csv
              Demo.st_point_4326 Demo.st_transform Demo.clock "sites.csv" "Optus")
    as (H1 & _ & _ & _ & H5 & _).
  split; [exact Hin|]. split; [exact (H1 _ Hin)|].
  split; [exact Hlat|]. split; [exact Hlon|].
  exact (H5 (Demo.clock 1) Demo.row_north Hlat Hlon).
Defined.


Lemma unknown_carrier_unknown_technology_witness :
  PyStr.lower "Vodafone" <> "optus" /\
  PyStr.lower "Vodafone" <> "telstra" /\
  PyStr.lower "Vodafone" <> "tpg" /\
  exists record,
    process_row Demo.str_of_float Demo.float_of_str (Demo.clock 0) Demo.row_sydney "Vodafone"
      = Ret (Some record) /\
    carrier record = "Vodafone" /\
    frequency_bands record = [] /\
    technology record = "Unknown".
Proof.
  assert (H1 : PyStr.lower "Vodafone" <> "optus") by (vm_compute; discriminate).
  assert (H2 : PyStr.lower "Vodafone" <> "telstra") by (vm_compute; discriminate).
  assert (H3 : PyStr.lower "Vodafone" <> "tpg") by (vm_compute; discriminate).
  split; [exact H1|]. split; [exact H2|]. split; [exact H3|].
  destruct (unknown_carrier_unknown_technology Demo.str_of_float Demo.float_of_str
              "Vodafone" H1 H2 H3) as (_ & _ & H).
  apply (H (Demo.clock 0) Demo.row_sydney (CFloat f_m33_8) (CFloat f_151_2)
           f_m33_8 f_151_2 (CStr "2000001")); reflexivity.
Defined.

Lemma default_site_type_standard_witness :
  site_types_classified (∅ : gmap (string * string) (site_row Demo.point)) /\
  site_types_classified
    (ingest_mobile_file Demo.st_point_4326 Demo.st_transform ∅
       (process_csv_file Demo.str_of_float Demo.float_of_str Demo.read_csv
          Demo.clock "sites.csv" "Optus")).
Proof.
  assert (H0 : site_types_classified (∅ : gmap (string * string) (site_row Demo.point))).
  { intros key row H. rewrite lookup_empty in H. discriminate. }
  split; [exact H0|].
  destruct (default_site_type_standard Demo.str_of_float Demo.float_of_str Demo.read_csv
              Demo.st_point_4326 Demo.st_transform ∅ Demo.clock
              "sites.csv" "Optus" H0) as (_ & _ & _ & H).
  exact H.
Defined.

Lemma upsert_without_site_type_stores_standard_witness :
  let tbl := ingest_mobile_file Demo.st_point_4326 Demo.st_transform ∅ [Demo.site_cofunded] in
  tbl !! ("2000001", "Optus") = Some Demo.stored_cofunded /\
  row_site_type Demo.stored_cofunded = Some "Co-funded" /\
  site_type Demo.site_plain = None /\
  exists row,
    ingest_mobile_file Demo.st_point_4326 Demo.st_transform tbl [Demo.site_plain]
      !! ("2000001", "Optus") = Some row /\
    row_site_type row = Some "Standard" /\
    row_data_source row = "CSV_Optus_2023".
Proof.
  intros tbl.
  assert (Hex : tbl !! (site_id Demo.site_plain, carrier Demo.site_plain)
                = Some Demo.stored_cofunded) by (vm_compute; reflexivity).
  split; [exact Hex|]. split; [reflexivity|]. split; [reflexivity|].
  destruct (upsert_without_site_type_stores_standard Demo.st_point_4326
              Demo.st_transform tbl Demo.site_plain Demo.stored_cofunded Hex eq_refl)
    as (row & Hrow & Hst & Hds & _).
  exists row. split; [exact Hrow|]. split; [exact Hst|]. exact Hds.
Defined.



Lemma kml_area_from_projected_geometry_witness :
  Demo.read_file "optus.kml"
    = Some {| gdf_crs := Some 4326%Z;
              gdf_rows := [Demo.feature "Area 1" Demo.unit_square] |} /\
  exists new,
    table_rows (process_optus_kml Demo.to_crs Demo.area Demo.read_file Demo.now ∅
                  "optus.kml").1 "mobile_coverage_areas" = [] ++ new /\
    length new = 1 /\
    (forall r, r ∈ new ->
       attrs r !! "area_sqkm" =
         Some (VFloat (float_div (Demo.area (Demo.to_crs 4326 7856 (geom r)))
                                 (float_of_Z 1000000)))).
Proof.
  assert (Hread : Demo.read_file "optus.kml"
            = Some {| gdf_crs := Some 4326%Z;
                      gdf_rows := [Demo.feature "Area 1" Demo.unit_square] |})
    by reflexivity.
  split; [exact Hread|].
  destruct (kml_area_from_projected_geometry Demo.to_crs Demo.area
              Demo.read_file Demo.now ∅ "optus.kml" _ 4326%Z Hread eq_refl)
    as (new & Htbl & Hlen & _ & Harea).
  exists new. split; [exact Htbl|]. split; [exact Hlen|]. exact Harea.
Defined.

Lemma kml_ingestion_appends_witness :
  let db1 := (process_optus_kml Demo.to_crs Demo.area Demo.read_file Demo.now ∅
                "optus.kml").1 in
  let db2 := (process_optus_kml Demo.to_crs Demo.area Demo.read_file Demo.now db1
                "optus.kml").1 in
  let new := kml_rows Demo.to_crs Demo.area Demo.read_file Demo.now "optus.kml" in
  Demo.read_file "optus.kml"
    = Some {| gdf_crs := Some 4326%Z;
              gdf_rows := [Demo.feature "Area 1" Demo.unit_square] |} /\
  length new = 1 /\
  table_rows db1 "mobile_coverage_areas" = new /\
  table_rows db2 "mobile_coverage_areas" = new ++ new.
Proof.
  intros db1 db2 new.
  assert (Hread : Demo.read_file "optus.kml"
            = Some {| gdf_crs := Some 4326%Z;
                      gdf_rows := [Demo.feature "Area 1" Demo.unit_square] |})
    by reflexivity.
  destruct (kml_ingestion_appends Demo.to_crs Demo.area Demo.read_file
              Demo.now Demo.now ∅ "optus.kml") as (_ & H1 & _ & Hlen & H2 & _ & Hsame).
  split; [exact Hread|]. split; [exact (Hlen _ 4326%Z Hread eq_refl)|].
  split; [exact H1|].
  change (table_rows db2 "mobile_coverage_areas"
          = [] ++ new ++ kml_rows Demo.to_crs Demo.area Demo.read_file Demo.now "optus.kml").
  exact H2.
Defined.

(** ** The further properties on the example environment *)

Lemma co_funding_follows_flag_witness :
  process_row Demo.str_of_float Demo.float_of_str (Demo.clock 0) Demo.row_cofunded "Optus"
    = Ret (Some DemoRun.site_cofunded_2024) /\
  flag_set Demo.str_of_float Demo.row_cofunded "Co_funded" = true /\
  site_type DemoRun.site_cofunded_2024 = Some (Some "Co-funded") /\
  site_name DemoRun.site_cofunded_2024 = "Optus Site 2000001 (MBSP)".
Proof.
  assert (Hrow : process_row Demo.str_of_float Demo.float_of_str (Demo.clock 0)
                   Demo.row_cofunded "Optus" = Ret (Some DemoRun.site_cofunded_2024))
    by (vm_compute; reflexivity).
  assert (Hflag : flag_set Demo.str_of_float Demo.row_cofunded "Co_funded" = true)
    by (vm_compute; reflexivity).
  destruct (co_funding_follows_flag Demo.str_of_float Demo.float_of_str (Demo.clock 0)
              Demo.row_cofunded "Optus" DemoRun.site_cofunded_2024 Hrow)
    as (rfnsa & _ & Hyes & _).
  split; [exact Hrow|]. split; [exact Hflag|].
  split; [exact (proj1 (Hyes Hflag))|]. reflexivity.
Defined.

Lemma stored_technology_follows_bands_witness :
  (forall key row,
     (∅ : gmap (string * string) (site_row Demo.point)) !! key = Some row ->
     row_technology row = determine_technology (row_frequency_bands row)) /\
  (forall key row,
     ingest_mobile_file Demo.st_point_4326 Demo.st_transform ∅
       (process_csv_file Demo.str_of_float Demo.float_of_str Demo.read_csv
          Demo.clock "sites.csv" "Optus") !! key = Some row ->
     row_technology row = determine_technology (row_frequency_bands row)).
Proof.
  assert (H0 : forall key row,
            (∅ : gmap (string * string) (site_row Demo.point)) !! key = Some row ->
            row_technology row = determine_technology (row_frequency_bands row)).
  { intros key row H. rewrite lookup_empty in H. discriminate. }
  split; [exact H0|].
  exact (proj2 (stored_technology_follows_bands Demo.str_of_float Demo.float_of_str
                  Demo.read_csv Demo.st_point_4326 Demo.st_transform ∅ Demo.clock
                  "sites.csv" "Optus" H0)).
Defined.


Lemma data_source_never_updated_witness :
  let tbl := ingest_mobile_file Demo.st_point_4326 Demo.st_transform ∅ [Demo.site_cofunded] in
  tbl !! ("2000001", "Optus") = Some Demo.stored_cofunded /\
  exists row,
    (insert_mobile_sites Demo.st_point_4326 Demo.st_transform tbl [Demo.site_plain]).1.1
      !! ("2000001", "Optus") = Some row /\
    row_data_source row = "CSV_Optus_2023".
Proof.
  intros tbl.
  assert (Hex : tbl !! ("2000001", "Optus") = Some Demo.stored_cofunded)
    by (vm_compute; reflexivity).
  split; [exact Hex|].
  exact (data_source_never_updated Demo.st_point_4326 Demo.st_transform tbl
           [Demo.site_plain] ("2000001", "Optus") Demo.stored_cofunded Hex).
Defined.

Lemma null_site_type_keeps_stored_witness :
  let tbl := ingest_mobile_file Demo.st_point_4326 Demo.st_transform ∅ [Demo.site_cofunded] in
  site_type DemoRun.site_null = Some None /\
  tbl !! ("2000001", "Optus") ≫= row_site_type = Some "Co-funded" /\
  exists row,
    (insert_mobile_sites Demo.st_point_4326 Demo.st_transform tbl [DemoRun.site_null]).1.1
      !! ("2000001", "Optus") = Some row /\
    row_site_type row = Some "Co-funded".
Proof.
  intros tbl.
  assert (Hst : tbl !! ("2000001", "Optus") ≫= row_site_type = Some "Co-funded")
    by (vm_compute; reflexivity).
  split; [reflexivity|]. split; [exact Hst|].
  destruct (null_site_type_keeps_stored Demo.st_point_4326 Demo.st_transform tbl
              DemoRun.site_null eq_refl) as (row & Hrow & Hkeep).
  exists row. split; [exact Hrow|]. exact (eq_trans Hkeep Hst).
Defined.

Lemma nbn_later_run_overwrites_witness :
  Demo.read_file "nbn_coverage_wireless.shp"
    = Some {| gdf_crs := Some 7856%Z;
              gdf_rows := [Demo.feature "W 1" Demo.unit_square_mga] |} /\
  nbn_table_name "wireless" = nbn_table_name "Wireless" /\
  process_nbn_shapefile Demo.to_crs Demo.read_file Demo.now
    (process_nbn_shapefile Demo.to_crs Demo.read_file Demo.now ∅
       "nbn_coverage_fixedline.shp" "wireless").1
    "nbn_coverage_wireless.shp" "Wireless"
  = process_nbn_shapefile Demo.to_crs Demo.read_file Demo.now ∅
      "nbn_coverage_wireless.shp" "Wireless".
Proof.
  assert (Hread : Demo.read_file "nbn_coverage_wireless.shp"
            = Some {| gdf_crs := Some 7856%Z;
                      gdf_rows := [Demo.feature "W 1" Demo.unit_square_mga] |})
    by reflexivity.
  assert (Hname : nbn_table_name "wireless" = nbn_table_name "Wireless") by reflexivity.
  split; [exact Hread|]. split; [exact Hname|].
  exact (nbn_later_run_overwrites Demo.to_crs Demo.read_file Demo.now Demo.now ∅
           "nbn_coverage_fixedline.shp" "nbn_coverage_wireless.shp"
           "wireless" "Wireless" _ Hread Hname).
Defined.


Lemma main_coverage_scope_witness :
  let db' := (main Demo.str_of_float Demo.float_of_str DemoRun.read_csv
                Demo.st_point_4326 Demo.st_transform Demo.to_crs Demo.area
                DemoRun.read_file DemoRun.env ∅ ∅).1.2.2 in
  connection_ok DemoRun.env = true /\
  length (table_rows db' "mobile_coverage_areas") = 1 /\
  stored_rows db' "Wireless"
    = [nbn_row Demo.to_crs 7856 Demo.now "Wireless"
         (Demo.feature "W 1" Demo.unit_square_mga)] /\
  stored_rows db' "Fixed Line" = [].
Proof.
  intros db'.
  destruct (main_coverage_scope Demo.str_of_float Demo.float_of_str DemoRun.read_csv
              Demo.st_point_4326 Demo.st_transform Demo.to_crs Demo.area
              DemoRun.read_file DemoRun.env ∅ ∅ eq_refl)
    as (_ & Hkml & Hnbn & Hmissing).
  assert (Hwireless :
    ("/Users/minesh/Agents/sgs/nbn_coverage_wireless.shp", "Wireless") ∈ nbn_files)
    by (right; left).
  assert (Hfixed :
    ("/Users/minesh/Agents/sgs/nbn_coverage_fixedline.shp", "Fixed Line") ∈ nbn_files)
    by left.
  split; [reflexivity|]. split; [|split].
  - exact (eq_trans (f_equal length Hkml) eq_refl).
  - exact (Hnbn _ _ {| gdf_crs := Some 7856%Z;
                       gdf_rows := [Demo.feature "W 1" Demo.unit_square_mga] |}
             Hwireless eq_refl eq_refl).
  - exact (eq_trans (Hmissing _ _ Hfixed (or_introl eq_refl)) eq_refl).
Defined.


Lemma not_a_number_coordinates_skipped_witness :
  DemoRun.row_empty_latitude !! "Latitude" = Some (CFloat S754_nan) /\
  DemoRun.row_empty_latitude !! "Longitude" = Some (CFloat f_151_2) /\
  process_row Demo.str_of_float Demo.float_of_str (Demo.clock 0)
    DemoRun.row_empty_latitude "Optus" = Ret None.
Proof.
  assert (Hlat : DemoRun.row_empty_latitude !! "Latitude" = Some (CFloat S754_nan))
    by reflexivity.
  assert (Hlon : DemoRun.row_empty_latitude !! "Longitude" = Some (CFloat f_151_2))
    by reflexivity.
  split; [exact Hlat|]. split; [exact Hlon|].
  destruct (not_a_number_coordinates_skipped Demo.str_of_float Demo.float_of_str
              (Demo.clock 0) DemoRun.row_empty_latitude "Optus"
              (CFloat S754_nan) (CFloat f_151_2) S754_nan f_151_2
              Hlat eq_refl Hlon eq_refl (or_introl eq_refl)) as (_ & _ & H).
  apply H. exists (CStr "2000006"). reflexivity.
Defined.
